(** * etl_pyspark: the transform and load core of the retail ETL

    A shallow embedding of [src/etl_pyspark.py]:
    - the rows of a DataFrame are a list; every column read over JDBC is
      nullable, so every field of a row is an [option];
    - [transformar_dados] is a pure function from the extracted rows to
      the rows of the four dimensions and the cleansed rows, as they are
      when no task raises; [transformar_dados_em] makes of them the
      DataFrames of a session, which a job evaluates and may abort on;
    - [carregar_dados] runs in a state and error monad over the
      warehouse, whose tables carry their columns by name and which
      records every request it serves.  *)

From Stdlib Require Import QArith Qabs Ascii String.
From stdpp Require Import base numbers list strings sorting gmap.

Local Open Scope string_scope.
Local Open Scope list_scope.
Local Open Scope Z_scope.

(** ** Column values *)

(** A value of a DecimalType(precision, scale) column, as JDBC hands a
    NUMERIC column to Spark: an unscaled integer of at most [precision]
    digits, worth [unscaled / 10 ^ scale]. Prices and costs are taken to
    be such columns. *)
Record Decimal := mkDecimal { unscaled : Z; scale : nat; precision : nat }.

(** An IntegerType value promoted to a decimal for arithmetic with one:
    DecimalType(10, 0). *)
Definition dec_of_Z (n : Z) : Decimal := mkDecimal n 0 10.

(** The rational a decimal stands for. *)
Definition dec_value (d : Decimal) : Q :=
  (inject_Z (unscaled d) / inject_Z (10 ^ Z.of_nat (scale d)))%Q.

(** [u / m] rounded to the nearest integer, a tie going away from zero
    (HALF_UP, the mode of Spark's [round] and of its decimal rescaling). *)
Definition div_half_up (u m : Z) : Z :=
  Z.sgn u * ((2 * Z.abs u + m) / (2 * m)).

(** The type of a decimal result that would need [p] digits with [s] of
    them decimal: as it is when [p] is at most 38, and otherwise precision
    38 with the scale cut to what the integral digits leave, though not
    below the lesser of [s] and 6. *)
Definition adjust_precision_scale (p s : nat) : nat * nat :=
  if decide (p ≤ 38)%nat then (p, s)
  else (38, (38 - (p - s)) `max` (s `min` 6))%nat.

(** Product of two decimals: the result type has one digit more than the
    two precisions together and the two scales together, adjusted to 38
    digits; the exact product is brought to that scale HALF_UP, and is
    null when it does not fit the precision. *)
Definition dec_mul (a b : Decimal) : option Decimal :=
  let '(p, s) := adjust_precision_scale (precision a + precision b + 1)
                   (scale a + scale b) in
  let u := div_half_up (unscaled a * unscaled b)
             (10 ^ Z.of_nat (scale a + scale b - s)) in
  if decide (Z.abs u < 10 ^ Z.of_nat p) then Some (mkDecimal u s p)
  else None.

(** [f.round(c, d)] on a decimal, for [d] not negative: the value is
    brought to at most [d] decimal digits HALF_UP, a value with fewer
    keeping its scale; the result type allows one more integral digit. *)
Definition round (x : Decimal) (d : nat) : Decimal :=
  let s := (scale x `min` d)%nat in
  mkDecimal (div_half_up (unscaled x) (10 ^ Z.of_nat (scale x - s))) s
    ((precision x - scale x + 1 + s) `min` 38)%nat.

(** A calendar date, the value of a DateType column. *)
Record Date := mkDate { year : Z; month : Z; dayofmonth : Z }.

#[global] Instance Date_eq_dec : EqDecision Date.
Proof. solve_decision. Defined.

(** [f.quarter]: 1 to 4, from the month. *)
Definition quarter (d : Date) : Z := (month d - 1) / 3 + 1.

Definition is_leap (y : Z) : bool :=
  bool_decide (y mod 4 = 0 ∧ (y mod 100 ≠ 0 ∨ y mod 400 = 0)).

Definition days_in_month (y m : Z) : Z :=
  if bool_decide (m = 2) then (if is_leap y then 29 else 28)
  else if bool_decide (m = 4 ∨ m = 6 ∨ m = 9 ∨ m = 11) then 30
  else 31.

Definition digit (c : ascii) : option Z :=
  let n := Z.of_nat (nat_of_ascii c) in
  if bool_decide (48 ≤ n ≤ 57) then Some (n - 48) else None.

(** The parse of [f.to_date(c, "yyyy-MM-dd")] on one string: four digits
    of a year from 0001 on, a dash, two digits, a dash, two digits and
    nothing else, naming a day that exists; [None] is the failure of the
    parse, which a session turns into null or into an exception (see
    [to_date_em]). A year of more than four digits, which the parser
    reads behind a plus sign, is left out. *)
Definition to_date (s : string) : option Date :=
  match s with
  | String y1 (String y2 (String y3 (String y4 (String s1
    (String m1 (String m2 (String s2
    (String d1 (String d2 EmptyString))))))))) =>
      if bool_decide (s1 = "-"%char ∧ s2 = "-"%char) then
        y1 ← digit y1; y2 ← digit y2; y3 ← digit y3; y4 ← digit y4;
        m1 ← digit m1; m2 ← digit m2; d1 ← digit d1; d2 ← digit d2;
        let y := 1000 * y1 + 100 * y2 + 10 * y3 + y4 in
        let m := 10 * m1 + m2 in
        let d := 10 * d1 + d2 in
        if bool_decide (1 ≤ y ∧ 1 ≤ m ≤ 12 ∧ 1 ≤ d ≤ days_in_month y m)
        then Some (mkDate y m d) else None
      else None
  | _ => None
  end.

(** [f.upper] on one string of ASCII characters, as the two-letter state
    codes of the source are: the letters a to z become A to Z. Spark
    upper-cases the letters of every alphabet; the model leaves what is
    not ASCII as it is, and what is stated of [upper] is stated of ASCII
    strings. *)
Definition upper_ascii (c : ascii) : ascii :=
  let n := nat_of_ascii c in
  if bool_decide (97 ≤ n ≤ 122)%nat then ascii_of_nat (n - 32) else c.

Fixpoint upper (s : string) : string :=
  match s with
  | EmptyString => EmptyString
  | String c s' => String (upper_ascii c) (upper s')
  end.

(** ** Rows *)

(** One row of the extraction query (lines 23-48), with the type [D] of
    its [data_venda] column: a string as extracted, a date once parsed. *)
Record Linha (D : Type) := mkLinha {
  id_venda : option Z;
  data_venda : option D;
  id_produto : option Z;
  qtd_vendida : option Z;
  preco_venda : option Decimal;
  nome_produto : option string;
  nome_categoria_produto : option string;
  id_cliente : option Z;
  nome_cliente : option string;
  idade : option Z;
  genero : option string;
  nome_categoria_cliente : option string;
  id_localidade : option Z;
  cidade : option string;
  estado : option string;
  regiao : option string;
  custo_compra_unitario : option Decimal
}.

Arguments mkLinha {D}.
Arguments id_venda {D}. Arguments data_venda {D}. Arguments id_produto {D}.
Arguments qtd_vendida {D}. Arguments preco_venda {D}.
Arguments nome_produto {D}. Arguments nome_categoria_produto {D}.
Arguments id_cliente {D}. Arguments nome_cliente {D}. Arguments idade {D}.
Arguments genero {D}. Arguments nome_categoria_cliente {D}.
Arguments id_localidade {D}. Arguments cidade {D}. Arguments estado {D}.
Arguments regiao {D}. Arguments custo_compra_unitario {D}.

(** A row of the transformed DataFrame: the cleansed columns and the
    computed [valor_total]. *)
Record Venda := mkVenda {
  linha : Linha Date;
  valor_total : option Decimal
}.

(** Rows of the four dimensions, as [transformar_dados] selects them. *)
Module DimCliente.
Record t := mk {
  id_cliente : option Z;
  nome_cliente : option string;
  idade : option Z;
  genero : option string;
  nome_categoria_cliente : option string
}.
#[global] Instance eq_dec : EqDecision t.
Proof. solve_decision. Defined.
End DimCliente.

Module DimProduto.
Record t := mk {
  id_produto : option Z;
  nome_produto : option string;
  nome_categoria_produto : option string
}.
#[global] Instance eq_dec : EqDecision t.
Proof. solve_decision. Defined.
End DimProduto.

Module DimLocalidade.
Record t := mk {
  id_localidade : option Z;
  cidade : option string;
  estado : option string;
  regiao : option string
}.
#[global] Instance eq_dec : EqDecision t.
Proof. solve_decision. Defined.
End DimLocalidade.

Module DimTempo.
Record t := mk {
  data_venda : option Date;
  ano : option Z;
  mes : option Z;
  dia : option Z;
  trimestre : option Z
}.
#[global] Instance eq_dec : EqDecision t.
Proof. solve_decision. Defined.
End DimTempo.

(** ** transformar_dados (lines 53-94) *)

(** An integer as a double: itself up to 53 significant bits, and beyond
    that the nearest multiple of the power of two that leaves 53, a tie
    going to the even one (no column holds an integer so large as to
    overflow a double). *)
Definition double_of_Z (n : Z) : Z :=
  let a := Z.abs n in
  let e := Z.log2 a - 52 in
  if decide (e ≤ 0) then n
  else
    let q := a / 2 ^ e in
    let r := a mod 2 ^ e in
    let h := 2 ^ (e - 1) in
    Z.sgn n * ((if decide (r < h ∨ (r = h ∧ Z.even q)) then q else q + 1)
               * 2 ^ e).

(** Spark's [median] aggregate is the exact percentile at 0.5, computed
    in doubles: on the sorted values, the one at position [(n - 1) / 2]
    when that is a whole number or both neighbours are equal, and
    otherwise half the one below plus half the one above; null on no
    value. Halving a double is exact, so the sum is rounded once. *)
Definition median (xs : list Z) : option Q :=
  let s := merge_sort Z.le xs in
  let n := length s in
  match s !! ((n - 1) / 2)%nat, s !! (n / 2)%nat with
  | Some lower, Some higher =>
      Some (if decide (lower = higher) then inject_Z (double_of_Z lower)
            else (inject_Z (double_of_Z (double_of_Z lower
                                         + double_of_Z higher)) / 2)%Q)
  | _, _ => None
  end.

(** Python's [int] on a float: the fraction is cut off, towards zero. *)
Definition int (q : Q) : Z := Z.quot (Qnum q) (Z.pos (Qden q)).

(** Line 59: [df.select("idade").na.drop().agg({"idade": "median"})]. *)
Definition idade_mediana (df : list (Linha string)) : option Q :=
  median (omap idade df).

(** Line 61: the value missing ages are filled with. *)
Definition valor_idade (df : list (Linha string)) : Z :=
  match idade_mediana df with
  | Some m => int m
  | None => 35
  end.

(** Lines 60-65: [df.na.fill] on one row, the fill value of [idade]
    given. Spark casts the 0 of a missing cost to the type of the column;
    here it is written with no decimal digit, and is worth the same. *)
Definition na_fill (v_idade : Z) (r : Linha string) : Linha string :=
  mkLinha (id_venda r) (data_venda r) (id_produto r) (qtd_vendida r)
    (preco_venda r)
    (Some (default "Produto não informado" (nome_produto r)))
    (nome_categoria_produto r) (id_cliente r) (nome_cliente r)
    (Some (default v_idade (idade r)))
    (Some (default "Não informado" (genero r)))
    (nome_categoria_cliente r) (id_localidade r) (cidade r) (estado r)
    (regiao r)
    (Some (default (dec_of_Z 0) (custo_compra_unitario r))).

(** Lines 69-71: the [when] chain on the gender column. A comparison with
    null is not true, so a null falls through to [otherwise]. *)
Definition padronizar_genero (g : option string) : option string :=
  match g with
  | Some s =>
      if decide (s = "M") then Some "Masculino"
      else if decide (s = "F") then Some "Feminino"
      else Some s
  | None => None
  end.

(** Lines 68-73: the two standardised columns. *)
Definition padronizar (r : Linha string) : Linha string :=
  mkLinha (id_venda r) (data_venda r) (id_produto r) (qtd_vendida r)
    (preco_venda r) (nome_produto r) (nome_categoria_produto r)
    (id_cliente r) (nome_cliente r) (idade r)
    (padronizar_genero (genero r))
    (nome_categoria_cliente r) (id_localidade r) (cidade r)
    (upper <$> estado r)
    (regiao r) (custo_compra_unitario r).

(** Line 77: [data_venda] parsed; null stays null and a string that does
    not parse becomes null. *)
Definition converter_data (r : Linha string) : Linha Date :=
  mkLinha (id_venda r) (data_venda r ≫= to_date) (id_produto r)
    (qtd_vendida r) (preco_venda r) (nome_produto r)
    (nome_categoria_produto r) (id_cliente r) (nome_cliente r) (idade r)
    (genero r) (nome_categoria_cliente r) (id_localidade r) (cidade r)
    (estado r) (regiao r) (custo_compra_unitario r).

(** Line 78: [na.drop(subset=["data_venda"])] keeps the rows with a date. *)
Definition tem_data (r : Linha Date) : Prop := is_Some (data_venda r).

#[global] Instance tem_data_dec r : Decision (tem_data r).
Proof. unfold tem_data. apply _. Defined.

(** Line 81: [round(qtd_vendida * preco_venda, 2)], null when either
    factor is or when the product overflows. *)
Definition calcular_valor_total (r : Linha Date) : Venda :=
  mkVenda r
    (q ← qtd_vendida r; p ← preco_venda r;
     t ← dec_mul (dec_of_Z q) p; Some (round t 2)).

(** Lines 57-81: the cleansed rows. *)
Definition limpar (df : list (Linha string)) : list Venda :=
  let v_idade := valor_idade df in
  let df := na_fill v_idade <$> df in
  let df := padronizar <$> df in
  let df := converter_data <$> df in
  let df := filter tem_data df in
  calcular_valor_total <$> df.

(** The row-level steps of lines 60-81 on one row that keeps its date. *)
Definition limpar_linha (v_idade : Z) (r : Linha string) : Venda :=
  calcular_valor_total (converter_data (padronizar (na_fill v_idade r))).

(** The rows line 78 keeps: those whose [data_venda] parses. *)
Definition data_valida (r : Linha string) : Prop :=
  is_Some (data_venda r ≫= to_date).

#[global] Instance data_valida_dec r : Decision (data_valida r).
Proof. unfold data_valida. apply _. Defined.

(** Lines 84-86: the columns each dimension selects. *)
Definition select_cliente (v : Venda) : DimCliente.t :=
  let r := linha v in
  DimCliente.mk (id_cliente r) (nome_cliente r) (idade r) (genero r)
    (nome_categoria_cliente r).

Definition select_produto (v : Venda) : DimProduto.t :=
  let r := linha v in
  DimProduto.mk (id_produto r) (nome_produto r) (nome_categoria_produto r).

Definition select_localidade (v : Venda) : DimLocalidade.t :=
  let r := linha v in
  DimLocalidade.mk (id_localidade r) (cidade r) (estado r) (regiao r).

(** Lines 89-92: the calendar columns of one distinct date. *)
Definition calendario (d : option Date) : DimTempo.t :=
  DimTempo.mk d (year <$> d) (month <$> d) (dayofmonth <$> d)
    (quarter <$> d).

(** [distinct()]: one row of each value; Spark promises no order, the
    model keeps that of the first occurrences. *)
Definition distinct {A} `{EqDecision A} (l : list A) : list A :=
  remove_dups l.

(** What [transformar_dados] returns. *)
Record Transformado := mkTransformado {
  dim_cliente : list DimCliente.t;
  dim_produto : list DimProduto.t;
  dim_localidade : list DimLocalidade.t;
  dim_tempo : list DimTempo.t;
  df_transformado : list Venda
}.

Definition transformar_dados (df : list (Linha string)) : Transformado :=
  let df := limpar df in
  mkTransformado
    (distinct (select_cliente <$> df))
    (distinct (select_produto <$> df))
    (distinct (select_localidade <$> df))
    (calendario <$> distinct ((data_venda ∘ linha) <$> df))
    df.

(** ** Joins of the SQL kind *)

(** The join condition [a = b] of SQL: never true on a null. *)
Definition chave_igual {K} `{EqDecision K} (a b : option K) : bool :=
  match a, b with
  | Some x, Some y => bool_decide (x = y)
  | _, _ => false
  end.

(** [l JOIN r ON ka = kb], an inner join on one column: each row of [l]
    with each row of [r] that has the same key, [pares] being the rows of
    [r] that one row of [l] is paired with. *)
Definition pares {A B K} `{EqDecision K} (ka : A → option K)
    (kb : B → option K) (a : A) (r : list B) : list B :=
  filter (λ b, chave_igual (ka a) (kb b)) r.

Definition join {A B K} `{EqDecision K} (ka : A → option K)
    (kb : B → option K) (l : list A) (r : list B) : list (A * B) :=
  a ← l; b ← pares ka kb a r; [(a, b)].

(** ** Spark sessions *)

(** The session [criar_spark_session] builds takes the defaults of the
    Spark it runs on. Two of them decide what becomes of a date that
    fails to parse: [ansi] is spark.sql.ansi.enabled (off by default in
    Spark 3, on in Spark 4), and [legado s] says that the time parser
    policy is EXCEPTION (the default of Spark 3) and that the parser of
    Spark 2 reads a date from [s], as it does from "2024-1-5". The
    policy LEGACY, under which line 77 would parse with the parser of
    Spark 2, is left out. *)
Record Sessao := mkSessao { ansi : bool; legado : string → bool }.

(** The defaults of Spark 4: ANSI mode, time parser policy CORRECTED. *)
Definition spark_4 : Sessao := mkSessao true (λ _, false).

(** Spark 3 with the time parser policy set to CORRECTED: ANSI mode off,
    the parser of Spark 2 never asked. *)
Definition spark_3_corrected : Sessao := mkSessao false (λ _, false).

(** What the driver program can be raised: a column name that does not
    resolve when a DataFrame is built, a table the database does not
    have, a job aborted because a task raised on a row. *)
Inductive Erro :=
  | AnalysisException (coluna : string)
  | SQLException (tabela : string)
  | SparkException.

#[global] Instance Erro_eq_dec : EqDecision Erro.
Proof. solve_decision. Defined.

#[global] Instance Erro_ret : MRet (sum Erro) := λ A x, inr x.
#[global] Instance Erro_bind : MBind (sum Erro) :=
  λ A B f m, match m with inr x => f x | inl e => inl e end.

(** [f.to_date(c, "yyyy-MM-dd")] on one string, in a session: the date
    when the string parses; when it does not, the task raises if the
    parser of Spark 2 would have read it (SparkUpgradeException) or the
    session is in ANSI mode (DateTimeException), and the result is null
    otherwise. *)
Definition to_date_em (sess : Sessao) (s : string) : Erro + option Date :=
  match to_date s with
  | Some d => inr (Some d)
  | None => if legado sess s || ansi sess then inl SparkException
            else inr None
  end.

(** Line 77 on one row, in a session; a null date stays null. *)
Definition converter_data_em (sess : Sessao) (r : Linha string)
  : Erro + Linha Date :=
  match data_venda r with
  | Some s => _ ← to_date_em sess s; inr (converter_data r)
  | None => inr (converter_data r)
  end.

(** Line 81 on one row, in a session: in ANSI mode a product that does
    not fit 38 digits raises instead of being null. *)
Definition calcular_valor_total_em (sess : Sessao) (r : Linha Date)
  : Erro + Venda :=
  match qtd_vendida r, preco_venda r with
  | Some q, Some p =>
      match dec_mul (dec_of_Z q) p with
      | None => if ansi sess then inl SparkException
                else inr (calcular_valor_total r)
      | Some _ => inr (calcular_valor_total r)
      end
  | _, _ => inr (calcular_valor_total r)
  end.

(** Lines 57-78 as a job runs them: every extracted row goes through
    line 77, and the rows with a date are kept. *)
Definition datar (sess : Sessao) (df : list (Linha string))
  : Erro + list (Linha Date) :=
  let v_idade := valor_idade df in
  df ← mapM (M := sum Erro)
         (λ r, converter_data_em sess (padronizar (na_fill v_idade r))) df;
  inr (filter tem_data df).

(** Lines 57-81 as a job runs them. *)
Definition limpar_em (sess : Sessao) (df : list (Linha string))
  : Erro + list Venda :=
  df ← datar sess df; mapM (M := sum Erro) (calcular_valor_total_em sess) df.

(** ** The warehouse *)

(** A value of a column of a DataFrame or of a table; [None] is null. *)
Inductive Valor :=
  | VInt (n : option Z)
  | VString (s : option string)
  | VDecimal (d : option Decimal)
  | VDate (d : option Date).

#[global] Instance Decimal_eq_dec : EqDecision Decimal.
Proof. solve_decision. Defined.

#[global] Instance Valor_eq_dec : EqDecision Valor.
Proof. solve_decision. Defined.

#[global] Instance Valor_inhabited : Inhabited Valor := populate (VInt None).

(** The join condition [a = b] on two values: never true on a null;
    decimals are compared by what they are worth. *)
Definition valor_igual (a b : Valor) : bool :=
  match a, b with
  | VInt x, VInt y => chave_igual x y
  | VString x, VString y => chave_igual x y
  | VDate x, VDate y => chave_igual x y
  | VDecimal (Some x), VDecimal (Some y) => Qeq_bool (dec_value x) (dec_value y)
  | _, _ => false
  end.

(** A table of the warehouse: its columns, in order, and its rows, each
    with a value per column. *)
Record Tabela := mkTabela { colunas : list string; linhas : list (list Valor) }.

(** What the warehouse is asked, in the order it is asked: a table
    overwritten, the columns of a table read (by [spark.read.jdbc]), the
    rows of a table read (by a job that evaluates a DataFrame read from
    it). *)
Inductive Evento :=
  | Escrita (tabela : string)
  | Leitura (tabela : string)
  | Varredura (tabela : string).

#[global] Instance Evento_eq_dec : EqDecision Evento.
Proof. solve_decision. Defined.

(** The warehouse: its tables by name, and the requests served so far
    (oldest first). *)
Record Armazem := mkArmazem {
  tabelas : gmap string Tabela;
  historico : list Evento
}.

(** Programs that talk to the warehouse and may be raised an error. *)
Definition DW (A : Type) : Type := Armazem → (Erro + A) * Armazem.

#[global] Instance DW_ret : MRet DW := λ A x w, (inr x, w).
#[global] Instance DW_bind : MBind DW :=
  λ A B f m w,
    match m w with
    | (inr x, w') => f x w'
    | (inl e, w') => (inl e, w')
    end.

(** A step that touches no table. *)
Definition analisar {A} (r : Erro + A) : DW A := λ w, (r, w).

(** ** DataFrames *)

(** A DataFrame is a plan: its columns are known as soon as it is built,
    its rows only when a job evaluates it, against the warehouse as it
    then is; [fontes] are the warehouse tables the job reads. *)
Module DataFrame.

Record t := mk {
  columns : list string;
  fontes : list string;
  collect : Armazem → Erro + list (list Valor)
}.

(** The position of the one column of a given name; a name that no
    column or more than one column has does not resolve. *)
Definition resolver (c : string) (cols : list string) : Erro + nat :=
  match filter (λ i, cols !! i = Some c) (seq 0 (length cols)) with
  | [i] => inr i
  | _ => inl (AnalysisException c)
  end.

(** [l.join(r, "k")]: an inner join on the column both sides call [k].
    The result has [k] once, then the other columns of [l], then the
    other columns of [r]; its rows are each row of [l] with each row of
    [r] of the same key. *)
Definition join (l r : t) (on : string) : Erro + t :=
  i ← resolver on (columns l);
  j ← resolver on (columns r);
  inr (mk (on :: delete i (columns l) ++ delete j (columns r))
         (fontes l ++ fontes r)
         (λ w, ls ← collect l w;
               rs ← collect r w;
               inr (a ← ls;
                    b ← filter (λ b, valor_igual (a !!! i) (b !!! j)) rs;
                    [a !!! i :: delete i a ++ delete j b]))).

(** [df.select(f.col(c1), f.col(c2), ...)]. *)
Definition select (cols : list string) (df : t) : Erro + t :=
  mapM (M := sum Erro) (λ c, resolver c (columns df)) cols ≫= λ js : list nat,
  inr (mk cols (fontes df)
         (λ w, collect df w ≫= λ ls : list (list Valor),
               inr ((λ a, (λ j, a !!! j) <$> js) <$> ls))).

End DataFrame.

(** [df.write.jdbc(table=..., mode="overwrite")], with no truncate
    option: the table is dropped and created again with the columns of
    the DataFrame, then a job evaluates the DataFrame and inserts its
    rows. When the job aborts the table stays as created; no partition
    is taken to have been committed (for the dimensions none can: their
    rows come out of the shuffle of [distinct], after every task that
    parses dates). *)
Definition write_jdbc (df : DataFrame.t) (tabela : string) : DW unit := λ w,
  let criada :=
    mkArmazem (<[tabela := mkTabela (DataFrame.columns df) []]> (tabelas w))
      (historico w ++ Escrita tabela :: (Varredura <$> DataFrame.fontes df)) in
  match DataFrame.collect df criada with
  | inr ls =>
      (inr tt,
       mkArmazem
         (<[tabela := mkTabela (DataFrame.columns df) ls]> (tabelas criada))
         (historico criada))
  | inl e => (inl e, criada)
  end.

(** [spark.read.jdbc(table=...)]: the columns of the table are read at
    once, its rows when a job evaluates the DataFrame. *)
Definition read_jdbc (tabela : string) : DW DataFrame.t := λ w,
  match tabelas w !! tabela with
  | Some t =>
      (inr (DataFrame.mk (colunas t) [tabela]
              (λ w', match tabelas w' !! tabela with
                     | Some t' => inr (linhas t')
                     | None => inl (SQLException tabela)
                     end)),
       mkArmazem (tabelas w) (historico w ++ [Leitura tabela]))
  | None => (inl (SQLException tabela), w)
  end.

(** ** The datasets as DataFrames *)

(** The columns of the extracted rows (lines 24-40), with [valor_total]
    added last (line 81), and the values of a cleansed row. *)
Definition colunas_transformado : list string :=
  ["id_venda"; "data_venda"; "id_produto"; "qtd_vendida"; "preco_venda";
   "nome_produto"; "nome_categoria_produto"; "id_cliente"; "nome_cliente";
   "idade"; "genero"; "nome_categoria_cliente"; "id_localidade"; "cidade";
   "estado"; "regiao"; "custo_compra_unitario"; "valor_total"].

Definition valores_transformado (v : Venda) : list Valor :=
  let r := linha v in
  [VInt (id_venda r); VDate (data_venda r); VInt (id_produto r);
   VInt (qtd_vendida r); VDecimal (preco_venda r); VString (nome_produto r);
   VString (nome_categoria_produto r); VInt (id_cliente r);
   VString (nome_cliente r); VInt (idade r); VString (genero r);
   VString (nome_categoria_cliente r); VInt (id_localidade r);
   VString (cidade r); VString (estado r); VString (regiao r);
   VDecimal (custo_compra_unitario r); VDecimal (valor_total v)].

(** Lines 84-92: the columns of the dimensions. *)
Definition colunas_cliente : list string :=
  ["id_cliente"; "nome_cliente"; "idade"; "genero"; "nome_categoria_cliente"].

Definition valores_cliente (c : DimCliente.t) : list Valor :=
  [VInt (DimCliente.id_cliente c); VString (DimCliente.nome_cliente c);
   VInt (DimCliente.idade c); VString (DimCliente.genero c);
   VString (DimCliente.nome_categoria_cliente c)].

Definition colunas_produto : list string :=
  ["id_produto"; "nome_produto"; "nome_categoria_produto"].

Definition valores_produto (p : DimProduto.t) : list Valor :=
  [VInt (DimProduto.id_produto p); VString (DimProduto.nome_produto p);
   VString (DimProduto.nome_categoria_produto p)].

Definition colunas_localidade : list string :=
  ["id_localidade"; "cidade"; "estado"; "regiao"].

Definition valores_localidade (l : DimLocalidade.t) : list Valor :=
  [VInt (DimLocalidade.id_localidade l); VString (DimLocalidade.cidade l);
   VString (DimLocalidade.estado l); VString (DimLocalidade.regiao l)].

Definition colunas_tempo : list string :=
  ["data_venda"; "ano"; "mes"; "dia"; "trimestre"].

Definition valores_tempo (t : DimTempo.t) : list Valor :=
  [VDate (DimTempo.data_venda t); VInt (DimTempo.ano t);
   VInt (DimTempo.mes t); VInt (DimTempo.dia t);
   VInt (DimTempo.trimestre t)].

(** What [transformar_dados] returns in a session: five DataFrames, not
    yet evaluated. The function itself raises nothing, its one action
    (line 59) reading the ages only. A job on a dimension runs lines
    57-78 on every extracted row and leaves the total, which no
    dimension selects, aside; a job on the cleansed rows runs line 81
    too. Where no row raises, the rows are those of [transformar_dados]. *)
Definition transformar_dados_em (sess : Sessao) (df : list (Linha string))
  : DataFrame.t * DataFrame.t * DataFrame.t * DataFrame.t * DataFrame.t :=
  let t := transformar_dados df in
  (DataFrame.mk colunas_cliente []
     (λ _, datar sess df ≫= λ _ : list (Linha Date),
           inr (valores_cliente <$> dim_cliente t)),
   DataFrame.mk colunas_produto []
     (λ _, datar sess df ≫= λ _ : list (Linha Date),
           inr (valores_produto <$> dim_produto t)),
   DataFrame.mk colunas_localidade []
     (λ _, datar sess df ≫= λ _ : list (Linha Date),
           inr (valores_localidade <$> dim_localidade t)),
   DataFrame.mk colunas_tempo []
     (λ _, datar sess df ≫= λ _ : list (Linha Date),
           inr (valores_tempo <$> dim_tempo t)),
   DataFrame.mk colunas_transformado []
     (λ _, limpar_em sess df ≫= λ df : list Venda,
           inr (valores_transformado <$> df))).

(** ** carregar_dados (lines 96-135) *)

(** Lines 121-131: the columns selected for the fact table. *)
Definition colunas_fato : list string :=
  ["sk_cliente"; "sk_produto"; "sk_localidade"; "sk_tempo"; "id_venda";
   "qtd_vendida"; "preco_venda"; "valor_total"; "custo_compra_unitario"].

(** Lines 116-131: the four joins and the projection. *)
Definition fato_vendas (df_transformado dim_cliente_sk dim_produto_sk
    dim_localidade_sk dim_tempo_sk : DataFrame.t) : Erro + DataFrame.t :=
  j ← DataFrame.join df_transformado dim_cliente_sk "id_cliente";
  j ← DataFrame.join j dim_produto_sk "id_produto";
  j ← DataFrame.join j dim_localidade_sk "id_localidade";
  j ← DataFrame.join j dim_tempo_sk "data_venda";
  DataFrame.select colunas_fato j.

Definition carregar_dados (dim_cliente dim_produto dim_localidade dim_tempo
    df_transformado : DataFrame.t) : DW unit :=
  write_jdbc dim_cliente "dim_cliente";;
  write_jdbc dim_produto "dim_produto";;
  write_jdbc dim_localidade "dim_localidade";;
  write_jdbc dim_tempo "dim_tempo";;
  dim_cliente_sk ← read_jdbc "dim_cliente";
  dim_produto_sk ← read_jdbc "dim_produto";
  dim_localidade_sk ← read_jdbc "dim_localidade";
  dim_tempo_sk ← read_jdbc "dim_tempo";
  fato_vendas ← analisar (fato_vendas df_transformado dim_cliente_sk
                            dim_produto_sk dim_localidade_sk dim_tempo_sk);
  write_jdbc fato_vendas "fato_vendas".

(** Lines 155-160 of [main]: the extracted rows transformed and loaded,
    in the session of line 142. *)
Definition main (sess : Sessao) (df_origem : list (Linha string)) : DW unit :=
  let '(dim_cliente, dim_produto, dim_localidade, dim_tempo, df_transformado)
    := transformar_dados_em sess df_origem in
  carregar_dados dim_cliente dim_produto dim_localidade dim_tempo
    df_transformado.

(** ** extrair_dados (lines 18-51) *)

(** The tables of the transactional database, each with the columns the
    query of lines 23-48 names. *)
Module Vendas.
Record t := mk {
  id_venda : option Z;
  data_venda : option string;
  id_cliente : option Z
}.
End Vendas.

Module ItemVendas.
Record t := mk {
  id_venda : option Z;
  id_produto : option Z;
  qtd_vendida : option Z;
  preco_venda : option Decimal
}.
End ItemVendas.

Module Produto.
Record t := mk {
  id_produto : option Z;
  nome_produto : option string;
  id_categoria_produto : option Z
}.
End Produto.

Module CategoriaProduto.
Record t := mk {
  id_categoria_produto : option Z;
  nome_categoria_produto : option string
}.
End CategoriaProduto.

Module Cliente.
Record t := mk {
  id_cliente : option Z;
  nome_cliente : option string;
  idade : option Z;
  genero : option string;
  id_categoria_cliente : option Z;
  id_localidade : option Z
}.
End Cliente.

Module CategoriaCliente.
Record t := mk {
  id_categoria_cliente : option Z;
  nome_categoria_cliente : option string
}.
End CategoriaCliente.

Module Localidade.
Record t := mk {
  id_localidade : option Z;
  cidade : option string;
  estado : option string;
  regiao : option string
}.
End Localidade.

Module ProdutoFornecedor.
Record t := mk {
  id_produto : option Z;
  custo_compra_unitario : option Decimal
}.
End ProdutoFornecedor.

(** The transactional database the query reads. *)
Record CRM := mkCRM {
  vendas : list Vendas.t;
  item_vendas : list ItemVendas.t;
  produto : list Produto.t;
  categoria_produto : list CategoriaProduto.t;
  cliente : list Cliente.t;
  categoria_cliente : list CategoriaCliente.t;
  localidade : list Localidade.t;
  produto_fornecedor : list ProdutoFornecedor.t
}.

(** [l LEFT JOIN r ON ka = kb]: each row of [l] with each row of [r] that
    has the same key, and with null when there is none. *)
Definition left_join {A B K} `{EqDecision K} (ka : A → option K)
    (kb : B → option K) (l : list A) (r : list B) : list (A * option B) :=
  a ← l;
  match pares ka kb a r with
  | [] => [(a, None)]
  | bs => (λ b, (a, Some b)) <$> bs
  end.

(** Lines 41-47: the seven tables joined by [JOIN ... ON]. *)
Definition Item : Type :=
  Vendas.t * ItemVendas.t * Produto.t * CategoriaProduto.t * Cliente.t
  * CategoriaCliente.t * Localidade.t.

Definition juntar_tabelas (crm : CRM) : list Item :=
  let j := join Vendas.id_venda ItemVendas.id_venda
             (vendas crm) (item_vendas crm) in
  let j := join (λ '(v, iv), ItemVendas.id_produto iv)
             Produto.id_produto j (produto crm) in
  let j := join (λ '(v, iv, p), Produto.id_categoria_produto p)
             CategoriaProduto.id_categoria_produto j
             (categoria_produto crm) in
  let j := join (λ '(v, iv, p, cp), Vendas.id_cliente v)
             Cliente.id_cliente j (cliente crm) in
  let j := join (λ '(v, iv, p, cp, c), Cliente.id_categoria_cliente c)
             CategoriaCliente.id_categoria_cliente j
             (categoria_cliente crm) in
  join (λ '(v, iv, p, cp, c, cc), Cliente.id_localidade c)
    Localidade.id_localidade j (localidade crm).

(** The product of a joined row, the key of the [LEFT JOIN] of line 48. *)
Definition produto_do_item (x : Item) : option Z :=
  let '(v, iv, p, cp, c, cc, l) := x in Produto.id_produto p.

(** Lines 24-40: the columns the query selects. *)
Definition vendas_completas (x : Item * option ProdutoFornecedor.t)
  : Linha string :=
  let '(v, iv, p, cp, c, cc, l, pf) := x in
  mkLinha (Vendas.id_venda v) (Vendas.data_venda v)
    (ItemVendas.id_produto iv) (ItemVendas.qtd_vendida iv)
    (ItemVendas.preco_venda iv) (Produto.nome_produto p)
    (CategoriaProduto.nome_categoria_produto cp)
    (Cliente.id_cliente c) (Cliente.nome_cliente c) (Cliente.idade c)
    (Cliente.genero c) (CategoriaCliente.nome_categoria_cliente cc)
    (Localidade.id_localidade l) (Localidade.cidade l)
    (Localidade.estado l) (Localidade.regiao l)
    (pf ≫= ProdutoFornecedor.custo_compra_unitario).

(** The DataFrame [spark.read.jdbc] returns for the query. *)
Definition extrair_dados (crm : CRM) : list (Linha string) :=
  vendas_completas
    <$> left_join produto_do_item ProdutoFornecedor.id_produto
          (juntar_tabelas crm) (produto_fornecedor crm).

(** Lines 151-160 of [main]: extraction, transformation and load. *)
Definition etl (sess : Sessao) (crm : CRM) : DW unit :=
  main sess (extrair_dados crm).

(** ** Sample rows *)

(** A line item of sale [venda], dated [data], bought by customer
    [cliente] named [nome] of age [idade_c]: three pens at 10.005. *)
Definition item (venda : Z) (data : string) (cliente : Z) (nome : string)
    (idade_c : option Z) : Linha string :=
  mkLinha (Some venda) (Some data) (Some 10) (Some 3)
    (Some (mkDecimal 10005 3 10)) (Some "Caneta") (Some "Papelaria")
    (Some cliente) (Some nome) idade_c (Some "F") (Some "Varejo")
    (Some 7) (Some "Recife") (Some "pe") (Some "Nordeste") None.

(** Three sales to customers of ages 20, 60 and 41, and one to a customer
    of no recorded age. *)
Definition vendas_tres_idades : list (Linha string) :=
  [item 1 "2024-01-15" 100 "Ana" (Some 20);
   item 2 "2024-01-16" 101 "Bia" (Some 60);
   item 3 "2024-01-17" 102 "Caio" None;
   item 4 "2024-01-18" 103 "Davi" (Some 41)].

(** Two sales, one to a customer whose recorded age is 2 ^ 53 + 1 (the
    column is a BIGINT), one to a customer of no recorded age. *)
Definition vendas_idade_larga : list (Linha string) :=
  [item 1 "2024-01-15" 100 "Ana" (Some (2 ^ 53 + 1));
   item 2 "2024-01-16" 101 "Bia" None].

(** Five sales, the third dated in a format that does not parse. *)
Definition cinco_vendas : list (Linha string) :=
  [item 1 "2024-01-15" 100 "Ana" (Some 20);
   item 2 "2024-01-16" 101 "Bia" (Some 30);
   item 3 "15/01/2024" 102 "Caio" (Some 40);
   item 4 "2024-01-18" 103 "Davi" (Some 50);
   item 5 "2024-01-19" 104 "Eva" (Some 60)].

(** Five sales, the third dated without the leading zeros. *)
Definition cinco_vendas_sem_zeros : list (Linha string) :=
  [item 1 "2024-01-15" 100 "Ana" (Some 20);
   item 2 "2024-01-16" 101 "Bia" (Some 30);
   item 3 "2024-1-5" 102 "Caio" (Some 40);
   item 4 "2024-01-18" 103 "Davi" (Some 50);
   item 5 "2024-01-19" 104 "Eva" (Some 60)].

(** A warehouse whose customer dimension was created with a surrogate
    key column, and whose fact table holds one row. *)
Definition armazem_com_sk : Armazem :=
  mkArmazem
    (<["dim_cliente" :=
         mkTabela ("sk_cliente" :: colunas_cliente)
           [[VInt (Some 1); VInt (Some 100); VString (Some "Ana");
             VInt (Some 20); VString (Some "Feminino");
             VString (Some "Varejo")]]]>
       (<["fato_vendas" :=
            mkTabela colunas_fato
              [[VInt (Some 1); VInt (Some 1); VInt (Some 1); VInt (Some 1);
                VInt (Some 1); VInt (Some 3);
                VDecimal (Some (mkDecimal 10005 3 10));
                VDecimal (Some (mkDecimal 3002 2 21));
                VDecimal (Some (mkDecimal 250 2 10))]]]> ∅))
    [].

(** One unit sold at 0.0049999995, the price held in a NUMERIC(38, 18)
    column. *)
Definition venda_preco_largo : Linha string :=
  mkLinha (Some 1) (Some "2024-01-15") (Some 10) (Some 1)
    (Some (mkDecimal 4999999500000000 18 38)) (Some "Caneta")
    (Some "Papelaria") (Some 100) (Some "Ana") (Some 20) (Some "F")
    (Some "Varejo") (Some 7) (Some "Recife") (Some "pe") (Some "Nordeste")
    None.

(** Ten units sold at 10 ^ 37, the price held in a NUMERIC(38, 0)
    column. *)
Definition venda_preco_enorme : Linha string :=
  mkLinha (Some 1) (Some "2024-01-15") (Some 10) (Some 10)
    (Some (mkDecimal (10 ^ 37) 0 38)) (Some "Caneta")
    (Some "Papelaria") (Some 100) (Some "Ana") (Some 20) (Some "F")
    (Some "Varejo") (Some 7) (Some "Recife") (Some "pe") (Some "Nordeste")
    None.

(** The end-to-end scenario: two customers, two products, one location,
    three line items on two dates; the second product has no supplier
    cost, and the third item carries a date that does not parse. *)
Definition cenario : list (Linha string) :=
  [mkLinha (Some 1) (Some "2024-01-15") (Some 10) (Some 3)
     (Some (mkDecimal 10005 3 10)) (Some "Caneta") (Some "Papelaria")
     (Some 100) (Some "Ana") (Some 20) (Some "F") (Some "Varejo")
     (Some 7) (Some "Recife") (Some "pe") (Some "Nordeste")
     (Some (mkDecimal 250 2 10));
   mkLinha (Some 2) (Some "2024-02-20") (Some 11) (Some 1)
     (Some (mkDecimal 1990 2 10)) (Some "Caderno") (Some "Papelaria")
     (Some 101) (Some "Caio") None (Some "M") (Some "Atacado")
     (Some 7) (Some "Recife") (Some "pe") (Some "Nordeste")
     None;
   mkLinha (Some 3) (Some "20/02/2024") (Some 10) (Some 2)
     (Some (mkDecimal 10005 3 10)) (Some "Caneta") (Some "Papelaria")
     (Some 100) (Some "Ana") (Some 20) (Some "F") (Some "Varejo")
     (Some 7) (Some "Recife") (Some "pe") (Some "Nordeste")
     (Some (mkDecimal 250 2 10))].

(** A warehouse with no table. *)
Definition armazem_vazio : Armazem := mkArmazem ∅ [].

(** A small transactional database: two sales of three line items, two
    products of one category, two customers of one city; the pen has two
    supplier costs and the notebook none. *)
Definition crm_exemplo : CRM :=
  mkCRM
    [Vendas.mk (Some 1) (Some "2024-01-15") (Some 100);
     Vendas.mk (Some 2) (Some "20/02/2024") (Some 101)]
    [ItemVendas.mk (Some 1) (Some 10) (Some 3) (Some (mkDecimal 10005 3 10));
     ItemVendas.mk (Some 1) (Some 11) (Some 1) (Some (mkDecimal 1990 2 10));
     ItemVendas.mk (Some 2) (Some 11) (Some 2) (Some (mkDecimal 1990 2 10))]
    [Produto.mk (Some 10) (Some "Caneta") (Some 1);
     Produto.mk (Some 11) None (Some 1)]
    [CategoriaProduto.mk (Some 1) (Some "Papelaria")]
    [Cliente.mk (Some 100) (Some "Ana") (Some 20) (Some "F") (Some 5) (Some 7);
     Cliente.mk (Some 101) (Some "Caio") None None (Some 5) (Some 7)]
    [CategoriaCliente.mk (Some 5) (Some "Varejo")]
    [Localidade.mk (Some 7) (Some "Recife") (Some "pe") (Some "Nordeste")]
    [ProdutoFornecedor.mk (Some 10) (Some (mkDecimal 250 2 10));
     ProdutoFornecedor.mk (Some 10) (Some (mkDecimal 260 2 10))].

(** ** Vocabulary of the statements *)

(** Two results of [transformar_dados] with the same rows in each of the
    five datasets, whatever their order. *)
Definition mesmas_linhas (t t' : Transformado) : Prop :=
  dim_cliente t ≡ₚ dim_cliente t' ∧
  dim_produto t ≡ₚ dim_produto t' ∧
  dim_localidade t ≡ₚ dim_localidade t' ∧
  dim_tempo t ≡ₚ dim_tempo t' ∧
  df_transformado t ≡ₚ df_transformado t'.

(** [v] is the value at position [k] (from 0) of [xs] in ascending
    order: fewer than [k + 1] values are below it, more than [k] are not
    above it. *)
Definition de_posto (xs : list Z) (k : nat) (v : Z) : Prop :=
  v ∈ xs ∧
  (length (filter (λ x, (x < v)%Z) xs) ≤ k)%nat ∧
  (k < length (filter (λ x, (x ≤ v)%Z) xs))%nat.

(** The integer median of [xs]: the middle value in ascending order, or
    the mean of the two middle values, its fraction cut off. *)
Definition mediana_inteira (xs : list Z) (v : Z) : Prop :=
  ∃ lo hi, de_posto xs ((length xs - 1) / 2) lo
           ∧ de_posto xs (length xs / 2) hi
           ∧ v = (lo + hi) ÷ 2.

(** A 32-bit integer, the value of an IntegerType column. *)
Definition int32 (n : Z) : Prop := - 2 ^ 31 ≤ n < 2 ^ 31.

(** A decimal that fits the type of its column. *)
Definition bem_formado (d : Decimal) : Prop :=
  Z.abs (unscaled d) < 10 ^ Z.of_nat (precision d)
  ∧ (scale d ≤ precision d)%nat.

(** How far a total [t] is from quantity [q] times unit price [p]. *)
Definition desvio (q : Z) (p t : Decimal) : Q :=
  Qabs (inject_Z q * dec_value p - dec_value t).

(** [t] is [q] times [p] rounded to two decimal places: it has at most
    two decimal digits and lies no further than half a hundredth from the
    exact product. *)
Definition arredondado_a_2_casas (q : Z) (p t : Decimal) : Prop :=
  (scale t ≤ 2)%nat ∧ (desvio q p t <= 5 # 1000)%Q.

(** ... and by the HALF_UP rule: a product halfway between two
    hundredths goes to the one further from zero. *)
Definition half_up (q : Z) (p t : Decimal) : Prop :=
  arredondado_a_2_casas q p t ∧
  ((desvio q p t == 5 # 1000)%Q →
   (Qabs (inject_Z q * dec_value p) < Qabs (dec_value t))%Q).

(** The total of a cleansed row is its quantity times its unit price
    rounded to two decimal places. *)
Definition total_arredondado (v : Venda) : Prop :=
  ∀ q p, qtd_vendida (linha v) = Some q → preco_venda (linha v) = Some p →
    ∃ t, valor_total v = Some t ∧ arredondado_a_2_casas q p t.

(** A string of ASCII characters, and a string with none of the letters
    a to z. *)
Fixpoint so_ascii (s : string) : Prop :=
  match s with
  | EmptyString => True
  | String c s' => (nat_of_ascii c < 128)%nat ∧ so_ascii s'
  end.

Fixpoint sem_minusculas (s : string) : Prop :=
  match s with
  | EmptyString => True
  | String c s' => ¬ (97 ≤ nat_of_ascii c ≤ 122)%nat ∧ sem_minusculas s'
  end.

(** The text of a date in the format yyyy-MM-dd: the year in four
    digits, the month and the day in two, with dashes between. *)
Definition digito (n : Z) : ascii := ascii_of_nat (Z.to_nat (48 + n mod 10)).

Definition formatar (d : Date) : string :=
  let y := year d in
  let m := month d in
  let dd := dayofmonth d in
  String (digito (y / 1000)) (String (digito (y / 100))
    (String (digito (y / 10)) (String (digito y)
    (String "-" (String (digito (m / 10)) (String (digito m)
    (String "-" (String (digito (dd / 10)) (String (digito dd)
    EmptyString))))))))).

(** A day of the calendar, of a year from 1 to 9999. *)
Definition data_existente (d : Date) : Prop :=
  1 ≤ year d ≤ 9999 ∧ 1 ≤ month d ≤ 12
  ∧ 1 ≤ dayofmonth d ≤ days_in_month (year d) (month d).

(** [f.to_date] raises on the date of a row in a session: the date is a
    string that does not parse, and either the parser of Spark 2 would
    have read it or the session is in ANSI mode. *)
Definition data_levanta (sess : Sessao) (r : Linha string) : bool :=
  match data_venda r with
  | Some s => bool_decide (to_date s = None) && (legado sess s || ansi sess)
  | None => false
  end.

(** Line 81 raises on a row in a session: the session is in ANSI mode and
    the product does not fit 38 digits. *)
Definition total_levanta {D} (sess : Sessao) (r : Linha D) : bool :=
  ansi sess &&
  match qtd_vendida r, preco_venda r with
  | Some q, Some p => bool_decide (dec_mul (dec_of_Z q) p = None)
  | _, _ => false
  end.

(** The requests a program makes of the warehouse, from the state it
    starts on to the state it leaves. *)
Definition pedidos (w w' : Armazem) : list Evento :=
  drop (length (historico w)) (historico w').

(** The requests of a load that gets as far as the fact table: the four
    dimensions overwritten, their four tables read back. *)
Definition pedidos_das_dimensoes : list Evento :=
  [Escrita "dim_cliente"; Escrita "dim_produto"; Escrita "dim_localidade";
   Escrita "dim_tempo"; Leitura "dim_cliente"; Leitura "dim_produto";
   Leitura "dim_localidade"; Leitura "dim_tempo"].

(** A table holds given columns and, in some order, given rows. *)
Definition tabela_com (w : Armazem) (tabela : string) (cols : list string)
    (ls : list (list Valor)) : Prop :=
  ∃ t, tabelas w !! tabela = Some t ∧ colunas t = cols ∧ linhas t ≡ₚ ls.

(** What a job on each of the five datasets of [transformar_dados] gives
    in a session. *)
Definition avaliacoes (sess : Sessao) (df : list (Linha string))
  : list (Erro + list (list Valor)) :=
  let '(dc, dp, dl, dt, dv) := transformar_dados_em sess df in
  [DataFrame.collect dc armazem_vazio; DataFrame.collect dp armazem_vazio;
   DataFrame.collect dl armazem_vazio; DataFrame.collect dt armazem_vazio;
   DataFrame.collect dv armazem_vazio].

(** A cleansed row finds its four natural keys in the dimension tables
    of a warehouse: each table has a row with the same key in the column
    the join is on. *)
Definition chave_na_tabela (w : Armazem) (tabela coluna : string)
    (k : Valor) : Prop :=
  ∃ t i, tabelas w !! tabela = Some t ∧ colunas t !! i = Some coluna
         ∧ Exists (λ l, valor_igual k (l !!! i)) (linhas t).

Definition chaves_nas_tabelas (w : Armazem) (v : Venda) : Prop :=
  chave_na_tabela w "dim_cliente" "id_cliente" (VInt (id_cliente (linha v))) ∧
  chave_na_tabela w "dim_produto" "id_produto" (VInt (id_produto (linha v))) ∧
  chave_na_tabela w "dim_localidade" "id_localidade"
    (VInt (id_localidade (linha v))) ∧
  chave_na_tabela w "dim_tempo" "data_venda" (VDate (data_venda (linha v))).

(** No two rows of a dimension share their natural key. *)
Definition chaves_naturais_unicas (t : Transformado) : Prop :=
  NoDup (DimCliente.id_cliente <$> dim_cliente t) ∧
  NoDup (DimProduto.id_produto <$> dim_produto t) ∧
  NoDup (DimLocalidade.id_localidade <$> dim_localidade t) ∧
  NoDup (DimTempo.data_venda <$> dim_tempo t).

(** Two sales to customer 100, whose name differs between them. *)
Definition vendas_nome_alterado : list (Linha string) :=
  [item 1 "2024-01-15" 100 "Ana" (Some 20);
   item 2 "2024-01-16" 100 "Ana Maria" (Some 20)].

(** Two sales to two customers. *)
Definition vendas_dois_clientes : list (Linha string) :=
  [item 1 "2024-01-15" 100 "Ana" (Some 20);
   item 2 "2024-01-16" 101 "Bia" None].

(** The identifiers of the five looked-up tables of the transactional
    database are primary keys: no two rows of a table share one. *)
Definition chaves_primarias (crm : CRM) : Prop :=
  NoDup (omap Produto.id_produto (produto crm)) ∧
  NoDup (omap CategoriaProduto.id_categoria_produto (categoria_produto crm)) ∧
  NoDup (omap Cliente.id_cliente (cliente crm)) ∧
  NoDup (omap CategoriaCliente.id_categoria_cliente (categoria_cliente crm)) ∧
  NoDup (omap Localidade.id_localidade (localidade crm)).

(** The supplier costs on record for the product of a joined row. *)
Definition custos_do_item (crm : CRM) (x : Item) : list ProdutoFornecedor.t :=
  pares produto_do_item ProdutoFornecedor.id_produto x (produto_fornecedor crm).

(** ** The shape of the cleansed rows *)

Lemma filter_fmap_comm {A B} (f : A → B) (P : B → Prop)
    `{∀ y, Decision (P y)} (l : list A) :
  filter P (f <$> l) = f <$> filter (P ∘ f) l.
Proof.
  induction l as [|x l IH]; [done|].
  rewrite fmap_cons, !filter_cons. simpl.
  destruct (decide (P (f x))); rewrite IH; done.
Qed.

(** The cleansed rows are the rows with a valid date, in their order,
    each taken through the row-level steps. *)
Lemma limpar_linhas (df : list (Linha string)) :
  limpar df = limpar_linha (valor_idade df) <$> filter data_valida df.
Proof.
  unfold limpar. rewrite <- !list_fmap_compose.
  rewrite filter_fmap_comm, <- list_fmap_compose.
  reflexivity.
Qed.

(** ** The median and the fill value of [idade] *)

Lemma median_is_Some (xs : list Z) : xs ≠ [] → is_Some (median xs).
Proof.
  intros Hne. unfold median.
  pose proof (Permutation_length (merge_sort_Permutation Z.le xs)) as Hlen.
  set (s := merge_sort Z.le xs) in *.
  assert (0 < length s)%nat as Hpos.
  { rewrite Hlen. destruct xs; [done | simpl; lia]. }
  destruct (lookup_lt_is_Some_2 s ((length s - 1) / 2)%nat) as [lo ->].
  { apply Nat.Div0.div_lt_upper_bound. lia. }
  destruct (lookup_lt_is_Some_2 s (length s / 2)%nat) as [hi ->].
  { apply Nat.Div0.div_lt_upper_bound. lia. }
  eauto.
Qed.

(** The median does not depend on the order of the values. *)
Lemma median_Permutation (xs ys : list Z) : xs ≡ₚ ys → median xs = median ys.
Proof.
  intros Hp. unfold median.
  replace (merge_sort Z.le ys) with (merge_sort Z.le xs); [done|].
  apply (Sorted_unique Z.le); try apply Sorted_merge_sort; try apply _.
  by rewrite !merge_sort_Permutation.
Qed.

(** An integer of fewer than 54 bits is a double. *)
Lemma double_of_Z_exato (n : Z) : Z.abs n < 2 ^ 53 → double_of_Z n = n.
Proof.
  intros Hn. unfold double_of_Z. rewrite decide_True; [done|].
  destruct (decide (Z.abs n = 0)) as [->|Hz]; [done|].
  assert (Z.log2 (Z.abs n) < 53); [|lia].
  apply Z.log2_lt_pow2; lia.
Qed.

Lemma int_inject_Z (a : Z) : int (inject_Z a) = a.
Proof. unfold int. simpl. apply Z.quot_1_r. Qed.

Lemma int_media (s : Z) : int (inject_Z s / 2)%Q = s ÷ 2.
Proof.
  unfold int. simpl. rewrite Z.mul_1_r. reflexivity.
Qed.

(** The median of values of fewer than 53 bits, cut to an integer: the
    doubles are exact. *)
Lemma int_median (xs : list Z) (m : Q) :
  Forall (λ a, Z.abs a < 2 ^ 52) xs → median xs = Some m →
  ∃ lo hi, merge_sort Z.le xs !! ((length xs - 1) / 2)%nat = Some lo
           ∧ merge_sort Z.le xs !! (length xs / 2)%nat = Some hi
           ∧ int m = (lo + hi) ÷ 2.
Proof.
  intros Hall. unfold median.
  assert (∀ i c, merge_sort Z.le xs !! i = Some c → Z.abs c < 2 ^ 52) as Hin.
  { intros i c Hc. rewrite Forall_forall in Hall. apply Hall.
    rewrite <- (merge_sort_Permutation Z.le xs).
    apply list_elem_of_lookup. eauto. }
  rewrite (Permutation_length (merge_sort_Permutation Z.le xs)).
  set (s := merge_sort Z.le xs) in *.
  destruct (s !! ((length xs - 1) / 2)%nat) as [a|] eqn:Ea; [|done].
  destruct (s !! (length xs / 2)%nat) as [b|] eqn:Eb; [|done].
  apply Hin in Ea, Eb. intros [= <-]. exists a, b.
  split; [done|]. split; [done|].
  pose proof (eq_refl : 2 ^ 53 = 2 * 2 ^ 52) as H53.
  rewrite (double_of_Z_exato a), (double_of_Z_exato b) by lia.
  case_decide as Hab.
  - subst b. rewrite int_inject_Z. replace (a + a) with (a * 2) by lia.
    by rewrite Z.quot_mul.
  - rewrite double_of_Z_exato by lia. apply int_media.
Qed.

Lemma filter_todos {A} (P : A → Prop) `{∀ x, Decision (P x)} (l : list A) :
  Forall P l → filter P l = l.
Proof.
  induction 1 as [|x l Hx _ IH]; [done|].
  by rewrite filter_cons_True, IH.
Qed.

Lemma filter_nenhum {A} (P : A → Prop) `{∀ x, Decision (P x)} (l : list A) :
  Forall (λ x, ¬ P x) l → filter P l = [].
Proof.
  induction 1 as [|x l Hx _ IH]; [done|].
  by rewrite filter_cons_False.
Qed.

(** In a sorted list the value at position [k] has rank [k]. *)
Lemma de_posto_sorted (s : list Z) (k : nat) (v : Z) :
  Sorted Z.le s → s !! k = Some v → de_posto s k v.
Proof.
  intros Hs Hk. apply Sorted_StronglySorted in Hs; [|apply _].
  pose proof (lookup_lt_Some _ _ _ Hk) as Hlt.
  rewrite <- (take_drop_middle s k v Hk) in Hs |- *.
  assert (Forall (λ x, x ≤ v) (take k s)) as Hbefore.
  { apply Forall_forall. intros x Hx.
    eapply (StronglySorted_app_1_elem_of Z.le); [done..|left]. }
  assert (Forall (λ x, v ≤ x) (drop (S k) s)) as Hafter.
  { apply StronglySorted_app_1_r in Hs.
    by apply StronglySorted_inv in Hs as [_ Hs]. }
  split; [|split].
  - apply elem_of_app. right. left.
  - rewrite filter_app, filter_cons_False by lia.
    rewrite (filter_nenhum _ (drop (S k) s)).
    + rewrite app_nil_r. etrans; [apply length_filter|].
      rewrite length_take. lia.
    + eapply Forall_impl; [exact Hafter|]. simpl. lia.
  - rewrite filter_app, filter_cons_True by lia.
    rewrite (filter_todos _ (take k s)) by done.
    rewrite length_app, length_take. simpl. lia.
Qed.

Lemma de_posto_Permutation (xs ys : list Z) (k : nat) (v : Z) :
  xs ≡ₚ ys → de_posto xs k v → de_posto ys k v.
Proof.
  intros Hp (Hin & Hlt & Hle). unfold de_posto. by rewrite <- !Hp.
Qed.

Lemma length_filter_impl (P Q : Z → Prop) `{∀ x, Decision (P x)}
    `{∀ x, Decision (Q x)} (xs : list Z) :
  (∀ x, P x → Q x) → (length (filter P xs) ≤ length (filter Q xs))%nat.
Proof.
  intros HPQ. induction xs as [|x xs IH]; [done|].
  rewrite !filter_cons. destruct (decide (P x)) as [HP|HP].
  - rewrite decide_True by auto. simpl. lia.
  - destruct (decide (Q x)); simpl; lia.
Qed.

(** A list has one value of each rank, and so one integer median. *)
Lemma de_posto_unico (xs : list Z) (k : nat) (v v' : Z) :
  de_posto xs k v → de_posto xs k v' → v = v'.
Proof.
  intros (_ & Hlt & Hle) (_ & Hlt' & Hle').
  destruct (Z.lt_trichotomy v v') as [Hc|[Hc|Hc]]; [|done|].
  - pose proof (length_filter_impl (λ x, x ≤ v) (λ x, x < v') xs
                  ltac:(simpl; lia)). lia.
  - pose proof (length_filter_impl (λ x, x ≤ v') (λ x, x < v) xs
                  ltac:(simpl; lia)). lia.
Qed.

Lemma mediana_inteira_unica (xs : list Z) (v v' : Z) :
  mediana_inteira xs v → mediana_inteira xs v' → v = v'.
Proof.
  intros (lo & hi & Hlo & Hhi & ->) (lo' & hi' & Hlo' & Hhi' & ->).
  by rewrite (de_posto_unico _ _ _ _ Hlo Hlo'),
    (de_posto_unico _ _ _ _ Hhi Hhi').
Qed.

(** The fill value is the integer median of ages of fewer than 53 bits. *)
Lemma valor_idade_mediana_inteira (xs : list Z) (m : Q) :
  Forall (λ a, Z.abs a < 2 ^ 52) xs → median xs = Some m →
  mediana_inteira xs (int m).
Proof.
  intros Hall Hm.
  destruct (int_median xs m Hall Hm) as (lo & hi & Hlo & Hhi & ->).
  exists lo, hi. split; [|split; [|done]].
  - eapply de_posto_Permutation; [apply (merge_sort_Permutation Z.le)|].
    apply de_posto_sorted; [apply Sorted_merge_sort; apply _|done].
  - eapply de_posto_Permutation; [apply (merge_sort_Permutation Z.le)|].
    apply de_posto_sorted; [apply Sorted_merge_sort; apply _|done].
Qed.

Lemma omap_idade_nil {D} (df : list (Linha D)) :
  (∀ r, r ∈ df → idade r = None) → omap idade df = [].
Proof.
  induction df as [|r df IH]; intros Hall; [done|].
  simpl. rewrite (Hall r) by left. apply IH. intros r' Hr'. apply Hall. by right.
Qed.

Lemma omap_idade_not_nil {D} (df : list (Linha D)) r :
  r ∈ df → is_Some (idade r) → omap idade df ≠ [].
Proof.
  intros Hin [a Ha] Hnil.
  assert (a ∈ omap idade df) as Hel by (apply list_elem_of_omap; eauto).
  rewrite Hnil in Hel. by apply not_elem_of_nil in Hel.
Qed.

(** The ages of the cleansed rows: each surviving row keeps its age, or
    gets the fill value when it had none. *)
Lemma limpar_idade (df : list (Linha string)) :
  (idade ∘ linha) <$> limpar df
  = (λ r, Some (default (valor_idade df) (idade r))) <$> filter data_valida df.
Proof. rewrite limpar_linhas, <- list_fmap_compose. reflexivity. Qed.

(** C3 (as stated): the fill value is not always the integer median of
    the non-null ages. The aggregate works in doubles: with the single
    recorded age 2 ^ 53 + 1 the missing age is repaired to 2 ^ 53, which
    is no age of the dataset. *)
Lemma C3_counterexample :
  valor_idade vendas_idade_larga = 2 ^ 53 ∧
  (idade ∘ linha) <$> df_transformado (transformar_dados vendas_idade_larga)
  = [Some (2 ^ 53 + 1); Some (2 ^ 53)] ∧
  ¬ mediana_inteira (omap idade vendas_idade_larga)
      (valor_idade vendas_idade_larga).
Proof.
  assert (valor_idade vendas_idade_larga = 2 ^ 53) as Hv by by vm_compute.
  split; [done|]. split; [by vm_compute|]. rewrite Hv.
  intros (lo & hi & (Hlo & _) & (Hhi & _) & Heq).
  change (omap idade vendas_idade_larga) with [2 ^ 53 + 1] in Hlo, Hhi.
  apply list_elem_of_singleton in Hlo, Hhi. subst lo hi.
  by vm_compute in Heq.
Qed.

(** C3 (amended): When some age is not null and the ages are below 2 ^ 52
    in magnitude (as every 32-bit age is), the value that fills the
    missing ages is the integer median of the non-null ages of the whole
    dataset, the middle value in ascending order or the mean of the two
    middle values cut to an integer, and there is one such value; every
    surviving row that had no age gets it, rows with an age keeping
    theirs. A dataset whose non-null ages are 20, 40 and 60, in any order
    and among any number of nulls, repairs a missing age to 40, as do the
    four rows of ages 20, null, 40 and 60; ages 20 and 41 repair it to
    30. When every age is null the fill value is one fixed constant. *)
Theorem C3_idade_preenchida_com_mediana :
  (∀ df : list (Linha string),
     (∃ r, r ∈ df ∧ is_Some (idade r)) →
     Forall (λ a, Z.abs a < 2 ^ 52) (omap idade df) →
     mediana_inteira (omap idade df) (valor_idade df) ∧
     (∀ v, mediana_inteira (omap idade df) v → v = valor_idade df) ∧
     (idade ∘ linha) <$> df_transformado (transformar_dados df)
     = (λ r, Some (default (valor_idade df) (idade r)))
         <$> filter data_valida df) ∧
  (∀ df : list (Linha string),
     omap idade df ≡ₚ [20; 40; 60] →
     valor_idade df = 40 ∧
     (idade ∘ linha) <$> df_transformado (transformar_dados df)
     = (λ r, Some (default 40 (idade r))) <$> filter data_valida df) ∧
  (idade ∘ linha)
    <$> df_transformado
          (transformar_dados
             [item 1 "2024-01-15" 100 "Ana" (Some 20);
              item 2 "2024-01-16" 101 "Bia" None;
              item 3 "2024-01-17" 102 "Caio" (Some 40);
              item 4 "2024-01-18" 103 "Davi" (Some 60)])
  = [Some 20; Some 40; Some 40; Some 60] ∧
  (∀ df : list (Linha string),
     omap idade df ≡ₚ [20; 41] → valor_idade df = 30) ∧
  (∃ c, ∀ df : list (Linha string),
     (∀ r, r ∈ df → idade r = None) → valor_idade df = c).
Proof.
  split; [|split; [|split; [|split]]].
  - intros df (r & Hr & Hage) Hall.
    destruct (median_is_Some (omap idade df)) as [m Hm].
    { by eapply omap_idade_not_nil. }
    assert (mediana_inteira (omap idade df) (valor_idade df)) as Hmed.
    { unfold valor_idade, idade_mediana. rewrite Hm.
      by apply valor_idade_mediana_inteira. }
    split; [done|]. split.
    + intros v Hv. by apply (mediana_inteira_unica (omap idade df)).
    + simpl. apply limpar_idade.
  - intros df Hp.
    assert (valor_idade df = 40) as Hv.
    { unfold valor_idade, idade_mediana.
      by rewrite (median_Permutation _ _ Hp). }
    split; [done|]. simpl. by rewrite limpar_idade, Hv.
  - by vm_compute.
  - intros df Hp. unfold valor_idade, idade_mediana.
    by rewrite (median_Permutation _ _ Hp).
  - exists 35. intros df Hall.
    unfold valor_idade, idade_mediana. by rewrite omap_idade_nil.
Qed.

(** C9: When every age is null, missing ages are filled with 35: that is
    the fill value, and the age of every cleansed row. *)
Theorem C9_idade_padrao_35 (df : list (Linha string)) :
  (∀ r, r ∈ df → idade r = None) →
  valor_idade df = 35 ∧
  Forall (λ v, idade (linha v) = Some 35)
    (df_transformado (transformar_dados df)).
Proof.
  intros Hall.
  assert (valor_idade df = 35) as Hv.
  { unfold valor_idade, idade_mediana. by rewrite omap_idade_nil. }
  split; [done|]. simpl. rewrite limpar_linhas, Hv.
  apply Forall_fmap, Forall_forall. intros r Hr. simpl.
  apply list_elem_of_filter in Hr as [_ Hr]. by rewrite (Hall r Hr).
Qed.

Lemma C9_idade_padrao_35_witness :
  valor_idade [item 1 "2024-01-15" 100 "Ana" None] = 35 ∧
  Forall (λ v, idade (linha v) = Some 35)
    (df_transformado
       (transformar_dados [item 1 "2024-01-15" 100 "Ana" None])).
Proof.
  apply (C9_idade_padrao_35 [item 1 "2024-01-15" 100 "Ana" None]).
  intros r Hr. apply list_elem_of_singleton in Hr. by subst r.
Defined.

(** C10: The fill value of the surviving rows is computed from the ages
    of all the extracted rows, those that the date step drops included:
    a row dropped for its date changes the age a surviving row is
    repaired with. *)
Theorem C10_mediana_antes_do_filtro_de_datas :
  (∀ df : list (Linha string),
     (idade ∘ linha) <$> df_transformado (transformar_dados df)
     = (λ r, Some (default
                     (match median (omap idade df) with
                      | Some m => int m
                      | None => 35
                      end) (idade r)))
         <$> filter data_valida df) ∧
  (let df := [item 1 "15/01/2024" 100 "Ana" (Some 80);
              item 2 "2024-01-16" 101 "Bia" None] in
   filter data_valida df = [item 2 "2024-01-16" 101 "Bia" None] ∧
   (idade ∘ linha) <$> df_transformado (transformar_dados df) = [Some 80] ∧
   (idade ∘ linha)
     <$> df_transformado (transformar_dados (filter data_valida df))
   = [Some 35]).
Proof.
  split.
  - intros df. simpl. apply limpar_idade.
  - by vm_compute.
Qed.

(** C4: The gender column after null repair and standardisation, for any
    value it may hold: "M" becomes "Masculino", "F" becomes "Feminino",
    null becomes "Não informado", every other value, that sentinel
    included, stays as it is; the result is always a value, never null. *)
Theorem C4_genero_total (v_idade : Z) (r : Linha string) :
  let g := genero (linha (limpar_linha v_idade r)) in
  (genero r = Some "M" → g = Some "Masculino") ∧
  (genero r = Some "F" → g = Some "Feminino") ∧
  (genero r = None → g = Some "Não informado") ∧
  (∀ s, genero r = Some s → s ≠ "M" → s ≠ "F" → g = Some s) ∧
  (genero r = Some "Não informado" → g = Some "Não informado") ∧
  is_Some g.
Proof.
  simpl. destruct (genero r) as [s|]; simpl.
  - repeat case_decide; subst; naive_solver.
  - naive_solver.
Qed.

(** ** Joins *)

Section join.
Context {A B K : Type} `{EqDecision K}.
Context (ka : A → option K) (kb : B → option K).

Lemma join_cons a l r :
  join ka kb (a :: l) r = (pair a <$> pares ka kb a r) ++ join ka kb l r.
Proof.
  unfold join. rewrite bind_cons. f_equal.
Qed.

Lemma join_nil r : join ka kb [] r = [].
Proof. reflexivity. Qed.

Lemma elem_of_join x l r :
  x ∈ join ka kb l r ↔ x.1 ∈ l ∧ x.2 ∈ r ∧ chave_igual (ka x.1) (kb x.2).
Proof.
  induction l as [|a l IH].
  - rewrite join_nil. split; [by intros ?%not_elem_of_nil|].
    by intros [?%not_elem_of_nil _].
  - rewrite join_cons, elem_of_app, IH, list_elem_of_fmap, elem_of_cons.
    unfold pares. split.
    + intros [(b & -> & Hb)|(?&?&?)]; [|tauto].
      apply list_elem_of_filter in Hb as [? ?]. simpl. tauto.
    + intros ([Hx|?] & ? & ?); [left|tauto].
      exists x.2. split; [destruct x; simpl in *; congruence|].
      apply list_elem_of_filter. by rewrite <- Hx.
Qed.

Lemma pares_nil a r :
  ¬ Exists (λ b, chave_igual (ka a) (kb b)) r → pares ka kb a r = [].
Proof.
  intros Hno. unfold pares. induction r as [|b r IH]; [done|].
  rewrite filter_cons_False; [apply IH|]; intros ?; apply Hno.
  - by right.
  - by left.
Qed.

Lemma pares_Exists a r b :
  b ∈ pares ka kb a r → Exists (λ b, chave_igual (ka a) (kb b)) r.
Proof.
  intros Hb. apply list_elem_of_filter in Hb as [? ?].
  apply Exists_exists. eauto.
Qed.

Lemma chave_igual_Some (x y : option K) :
  chave_igual x y → ∃ k, x = Some k ∧ y = Some k.
Proof.
  destruct x as [x|], y as [y|]; simpl; try done.
  intros ->%bool_decide_unpack. eauto.
Qed.

(** With at most one row per key, a row of [l] pairs with at most one
    row of [r]. *)
Lemma pares_unica a r :
  NoDup (omap kb r) →
  Exists (λ b, chave_igual (ka a) (kb b)) r → ∃ b, pares ka kb a r = [b].
Proof.
  intros Hnd. unfold pares. induction r as [|b r IH]; intros Hex.
  { by apply Exists_nil in Hex. }
  destruct (decide (chave_igual (ka a) (kb b))) as [Hb|Hb].
  - exists b. rewrite filter_cons_True by done. f_equal.
    apply chave_igual_Some in Hb as (k & Ha & Hk).
    simpl in Hnd. rewrite Hk in Hnd. apply NoDup_cons in Hnd as [Hnot _].
    apply pares_nil. intros (b' & Hb' & Heq)%Exists_exists.
    apply chave_igual_Some in Heq as (k' & Ha' & Hk').
    apply Hnot, list_elem_of_omap. exists b'. split; [done|]. congruence.
  - rewrite filter_cons_False by done. apply IH.
    + simpl in Hnd. destruct (kb b); [by apply NoDup_cons in Hnd as [_ ?]|done].
    + by apply Exists_cons in Hex as [?|?].
Qed.

End join.

(** ** Lists *)

Lemma filter_complement_length {A} (P : A → Prop) `{∀ x, Decision (P x)}
    (l : list A) :
  (length (filter P l) + length (filter (λ x, ¬ P x) l) = length l)%nat.
Proof.
  rewrite <- length_app. apply Permutation_length, filter_app_complement.
Qed.

Lemma elem_of_distinct_fmap {A B} `{EqDecision B} (f : A → B) (l : list A) y :
  y ∈ distinct (f <$> l) ↔ ∃ x, x ∈ l ∧ y = f x.
Proof.
  unfold distinct. rewrite elem_of_remove_dups, list_elem_of_fmap.
  split; intros (x & ? & ?); eauto.
Qed.

(** ** Rounding *)

(** [div_half_up u m] is the integer nearest to [u / m]: the remainder is
    at most half of [m], and on a tie the quotient is the one further
    from zero. *)
Lemma div_half_up_nearest (u m : Z) :
  0 < m →
  let k := div_half_up u m in
  2 * Z.abs (u - k * m) ≤ m ∧
  (2 * Z.abs (u - k * m) = m → Z.abs u < Z.abs (k * m)).
Proof.
  intros Hm k. subst k. unfold div_half_up.
  pose proof (Z.div_mod (2 * Z.abs u + m) (2 * m) ltac:(lia)) as Hdiv.
  pose proof (Z.mod_pos_bound (2 * Z.abs u + m) (2 * m) ltac:(lia)) as Hmod.
  set (q := (2 * Z.abs u + m) / (2 * m)) in *.
  assert (0 ≤ q) as Hq by (apply Z.div_pos; lia).
  destruct (Z.sgn_spec u) as [(Hu & ->)|[(Hu & ->)|(Hu & ->)]]; nia.
Qed.

Lemma div_half_up_1 (u : Z) : div_half_up u 1 = u.
Proof.
  unfold div_half_up.
  replace (2 * Z.abs u + 1) with (1 + Z.abs u * (2 * 1)) by lia.
  rewrite Z.div_add by lia. change (1 / (2 * 1)) with 0. lia.
Qed.

(** The value and the scale [round] gives. *)
Lemma round_small (x : Decimal) (d : nat) :
  (scale x ≤ d)%nat →
  unscaled (round x d) = unscaled x ∧ scale (round x d) = scale x.
Proof.
  intros H. unfold round. simpl.
  rewrite Nat.min_l, Nat.sub_diag by done. by rewrite div_half_up_1.
Qed.

Lemma round_large (x : Decimal) (d : nat) :
  (d < scale x)%nat →
  unscaled (round x d)
  = div_half_up (unscaled x) (10 ^ Z.of_nat (scale x - d))
  ∧ scale (round x d) = d.
Proof. intros H. unfold round. simpl. by rewrite Nat.min_r by lia. Qed.

(** The product of a 32-bit quantity and a price of at most 27 digits
    needs no more than 38 digits: it is exact. *)
Lemma dec_mul_exato (q : Z) (p : Decimal) :
  int32 q → bem_formado p → (precision p ≤ 27)%nat →
  dec_mul (dec_of_Z q) p
  = Some (mkDecimal (q * unscaled p) (scale p) (10 + precision p + 1)).
Proof.
  intros Hq [Hp _] Hprec. unfold dec_mul, adjust_precision_scale, dec_of_Z.
  cbn [precision scale unscaled]. rewrite Nat.add_0_l.
  rewrite decide_True by lia. rewrite Nat.sub_diag, div_half_up_1.
  rewrite decide_True; [done|].
  assert (Z.abs q < 10 ^ 10) as Hq' by (unfold int32 in Hq; lia).
  replace (Z.of_nat (10 + precision p + 1))
    with (10 + Z.of_nat (precision p) + 1) by lia.
  rewrite !Z.pow_add_r by lia. rewrite Z.abs_mul.
  assert (0 < 10 ^ Z.of_nat (precision p)) by (apply Z.pow_pos_nonneg; lia).
  nia.
Qed.

(** Distances between decimals, from rationals to integers. *)
Lemma desvio_le (q a b m n : Z) :
  0 < m → 0 < n →
  (Qabs (inject_Z q * (inject_Z a / inject_Z m) - inject_Z b / inject_Z n)
   <= 5 # 1000)%Q
  ↔ 200 * Z.abs (q * a * n - b * m) ≤ m * n.
Proof.
  intros Hm Hn. destruct m as [|m|m]; try lia. destruct n as [|n|n]; try lia.
  unfold Qle, Qabs, Qminus, Qplus, Qopp, Qmult, Qdiv, Qinv, inject_Z. simpl.
  rewrite !Pos.mul_1_l, !Pos2Z.inj_mul. lia.
Qed.

Lemma desvio_eq (q a b m n : Z) :
  0 < m → 0 < n →
  (Qabs (inject_Z q * (inject_Z a / inject_Z m) - inject_Z b / inject_Z n)
   == 5 # 1000)%Q
  ↔ 200 * Z.abs (q * a * n - b * m) = m * n.
Proof.
  intros Hm Hn. destruct m as [|m|m]; try lia. destruct n as [|n|n]; try lia.
  unfold Qeq, Qabs, Qminus, Qplus, Qopp, Qmult, Qdiv, Qinv, inject_Z. simpl.
  rewrite !Pos.mul_1_l, !Pos2Z.inj_mul. lia.
Qed.

Lemma Qabs_lt_frac (q a b m n : Z) :
  0 < m → 0 < n →
  (Qabs (inject_Z q * (inject_Z a / inject_Z m))
   < Qabs (inject_Z b / inject_Z n))%Q
  ↔ Z.abs (q * a) * n < Z.abs b * m.
Proof.
  intros Hm Hn. destruct m as [|m|m]; try lia. destruct n as [|n|n]; try lia.
  unfold Qlt, Qabs, Qmult, Qdiv, Qinv, inject_Z. simpl.
  rewrite !Pos.mul_1_l. lia.
Qed.

(** Rounding the exact product to two places is HALF_UP. *)
Lemma round_half_up (q : Z) (p : Decimal) (pr : nat) :
  half_up q p (round (mkDecimal (q * unscaled p) (scale p) pr) 2).
Proof.
  set (x := mkDecimal (q * unscaled p) (scale p) pr).
  assert (0 < 10 ^ Z.of_nat (scale p)) as Hm by (apply Z.pow_pos_nonneg; lia).
  unfold half_up, arredondado_a_2_casas, desvio, dec_value.
  destruct (decide (scale p ≤ 2)%nat) as [Hs|Hs].
  - destruct (round_small x 2 Hs) as [-> ->]. subst x.
    cbn [unscaled scale].
    split; [split; [done|]|].
    + apply desvio_le; [done..|]. rewrite Z.sub_diag. simpl. lia.
    + intros Heq%desvio_eq; [|done..]. rewrite Z.sub_diag in Heq.
      simpl in Heq. lia.
  - destruct (round_large x 2 ltac:(simpl; lia)) as [-> ->]. subst x.
    cbn [unscaled scale].
    assert (0 < 10 ^ Z.of_nat (scale p - 2)) as Hk
      by (apply Z.pow_pos_nonneg; lia).
    assert (10 ^ Z.of_nat (scale p) = 10 ^ Z.of_nat (scale p - 2) * 100) as ->.
    { replace (Z.of_nat (scale p)) with (Z.of_nat (scale p - 2) + 2) at 1
        by lia.
      by rewrite Z.pow_add_r by lia. }
    change (10 ^ Z.of_nat 2) with 100.
    destruct (div_half_up_nearest (q * unscaled p)
                (10 ^ Z.of_nat (scale p - 2)) Hk) as [Hle Htie].
    set (k := div_half_up (q * unscaled p) (10 ^ Z.of_nat (scale p - 2))) in *.
    set (m := 10 ^ Z.of_nat (scale p - 2)) in *.
    split; [split; [done|]|].
    + apply desvio_le; [lia..|].
      replace (q * unscaled p * 100 - k * (m * 100))
        with ((q * unscaled p - k * m) * 100) by lia.
      rewrite Z.abs_mul. change (Z.abs 100) with 100. lia.
    + intros Heq%desvio_eq; [|lia..]. apply Qabs_lt_frac; [lia..|].
      replace (q * unscaled p * 100 - k * (m * 100))
        with ((q * unscaled p - k * m) * 100) in Heq by lia.
      rewrite Z.abs_mul in Heq. change (Z.abs 100) with 100 in Heq.
      specialize (Htie ltac:(lia)).
      rewrite (Z.abs_mul k m), (Z.abs_eq m) in Htie by lia. lia.
Qed.

(** The total of a cleansed row, from its own quantity and price. *)
Lemma valor_total_da_linha (df : list (Linha string)) :
  Forall (λ v, valor_total v
               = (q ← qtd_vendida (linha v); p ← preco_venda (linha v);
                  t ← dec_mul (dec_of_Z q) p; Some (round t 2)))
    (df_transformado (transformar_dados df)).
Proof.
  simpl. unfold limpar. apply Forall_forall.
  intros v (r & -> & _)%list_elem_of_fmap. reflexivity.
Qed.

(** C6 (as stated): the total is not always quantity times unit price
    rounded to two decimal places. One unit at 0.0049999995, the price
    held with 18 decimal digits in a 38-digit column, totals 0.01 and not
    0.00: the product is first brought to the 7 decimal digits its type
    keeps and only then to 2. Ten units at 10 ^ 37 have no total at all:
    the product does not fit 38 digits and is null (in ANSI mode the job
    raises instead). *)
Lemma C6_counterexample :
  valor_total <$> df_transformado (transformar_dados [venda_preco_largo])
  = [Some (mkDecimal 1 2 34)] ∧
  ¬ Forall total_arredondado
      (df_transformado (transformar_dados [venda_preco_largo])) ∧
  valor_total <$> df_transformado (transformar_dados [venda_preco_enorme])
  = [None] ∧
  ¬ Forall total_arredondado
      (df_transformado (transformar_dados [venda_preco_enorme])).
Proof.
  split; [reflexivity|]. split; [|split; [reflexivity|]].
  - intros H. apply Forall_inv in H.
    destruct (H 1 (mkDecimal 4999999500000000 18 38) eq_refl eq_refl)
      as (t & Ht & _ & Hd).
    vm_compute in Ht. injection Ht as <-. vm_compute in Hd. by apply Hd.
  - intros H. apply Forall_inv in H.
    destruct (H 10 (mkDecimal (10 ^ 37) 0 38) eq_refl eq_refl)
      as (t & Ht & _). vm_compute in Ht. discriminate Ht.
Qed.

(** C6 (amended): For every surviving row whose quantity is a 32-bit
    integer and whose unit price fits a decimal column of at most 27
    digits, [valor_total] is quantity times unit price rounded to 2
    decimal places by one rule, HALF_UP: it has as many decimal digits as
    the price, at most 2, lies within half a hundredth of the exact
    product and, when the product is halfway between two hundredths, is
    the one further from zero. Quantity 3 at unit price 10.005 gives
    exactly 30.02. *)
Theorem C6_valor_total_half_up (df : list (Linha string)) :
  Forall (λ v, ∀ q p,
            qtd_vendida (linha v) = Some q → preco_venda (linha v) = Some p →
            int32 q → bem_formado p → (precision p ≤ 27)%nat →
            ∃ t, valor_total v = Some t ∧ half_up q p t
                 ∧ scale t = (scale p `min` 2)%nat)
    (df_transformado (transformar_dados df)) ∧
  (∀ v_idade r pr,
     qtd_vendida r = Some 3 → preco_venda r = Some (mkDecimal 10005 3 pr) →
     (5 ≤ pr ≤ 27)%nat →
     ∃ t, valor_total (limpar_linha v_idade r) = Some t
          ∧ unscaled t = 3002 ∧ scale t = 2%nat
          ∧ (dec_value t == 3002 # 100)%Q) ∧
  (∀ pr, dec_value (mkDecimal 10005 3 pr) == 10005 # 1000)%Q.
Proof.
  split; [|split].
  - eapply Forall_impl; [apply valor_total_da_linha|].
    intros v Hv q p Hq Hp Hq32 Hbem Hprec. rewrite Hv, Hq, Hp. simpl.
    rewrite dec_mul_exato by done. simpl. eexists. split; [done|].
    split; [apply round_half_up|]. reflexivity.
  - intros v_idade r pr Hq Hp Hpr. simpl. rewrite Hq, Hp. simpl.
    rewrite (dec_mul_exato 3 (mkDecimal 10005 3 pr)); simpl.
    + eexists. split; [done|]. by repeat split.
    + unfold int32. lia.
    + split; simpl; [|lia]. change (Z.abs 10005) with (10 ^ 5 - 89995).
      assert (10 ^ 5 ≤ 10 ^ Z.of_nat pr)
        by (apply Z.pow_le_mono_r; lia). lia.
    + lia.
  - reflexivity.
Qed.

(** ** Row order *)

Lemma valor_idade_Permutation (df df' : list (Linha string)) :
  df ≡ₚ df' → valor_idade df = valor_idade df'.
Proof.
  intros Hp. unfold valor_idade, idade_mediana.
  by rewrite (median_Permutation (omap idade df) (omap idade df'))
    by (by rewrite Hp).
Qed.

Lemma limpar_Permutation (df df' : list (Linha string)) :
  df ≡ₚ df' → limpar df ≡ₚ limpar df'.
Proof.
  intros Hp. rewrite !limpar_linhas, (valor_idade_Permutation df df' Hp).
  by rewrite Hp.
Qed.

Lemma distinct_Permutation {A} `{EqDecision A} (l l' : list A) :
  l ≡ₚ l' → distinct l ≡ₚ distinct l'.
Proof.
  intros Hp. unfold distinct.
  apply NoDup_Permutation; [apply NoDup_remove_dups..|].
  intros x. by rewrite !elem_of_remove_dups, Hp.
Qed.

Ltac mesmas_linhas_por Hl :=
  unfold mesmas_linhas, transformar_dados; simpl;
  split; [apply distinct_Permutation; by rewrite Hl|];
  split; [apply distinct_Permutation; by rewrite Hl|];
  split; [apply distinct_Permutation; by rewrite Hl|];
  split; [|done];
  apply fmap_Permutation, distinct_Permutation; by rewrite Hl.

(** The same rows cut into partitions in two ways give the same result. *)
Corollary transformar_dados_particoes (ps ps' : list (list (Linha string))) :
  mjoin ps ≡ₚ mjoin ps' →
  mesmas_linhas (transformar_dados (mjoin ps)) (transformar_dados (mjoin ps')).
Proof.
  intros Hp. pose proof (limpar_Permutation _ _ Hp) as Hl.
  mesmas_linhas_por Hl.
Qed.

(** C7: Two inputs with the same rows in any order give the same four
    dimensions and the same cleansed rows, as multisets of rows. *)
Theorem C7_ordem_das_linhas_irrelevante (df df' : list (Linha string)) :
  df ≡ₚ df' → mesmas_linhas (transformar_dados df) (transformar_dados df').
Proof.
  intros Hp. pose proof (limpar_Permutation df df' Hp) as Hl.
  mesmas_linhas_por Hl.
Qed.

Lemma C7_ordem_das_linhas_irrelevante_witness :
  mesmas_linhas
    (transformar_dados
       [item 1 "2024-01-15" 100 "Ana" (Some 20);
        item 2 "2024-02-30" 101 "Bia" None;
        item 3 "2024-01-17" 102 "Caio" (Some 41)])
    (transformar_dados
       [item 3 "2024-01-17" 102 "Caio" (Some 41);
        item 1 "2024-01-15" 100 "Ana" (Some 20);
        item 2 "2024-02-30" 101 "Bia" None]).
Proof.
  apply C7_ordem_das_linhas_irrelevante.
  apply (Permutation_app_comm [_; _] [_]).
Defined.

(** ** The load *)

Lemma mapM_guard {A B} (f : A → Erro + B) (p : A → bool) (g : A → B)
    (l : list A) :
  (∀ x, f x = if p x then inl SparkException else inr (g x)) →
  mapM f l = if decide (Exists (λ x, p x) l) then inl SparkException
             else inr (g <$> l).
Proof.
  intros Hf. induction l as [|x l IH].
  { rewrite decide_False; [reflexivity|]. by intros ?%Exists_nil. }
  cbn [mapM]. rewrite Hf. destruct (p x) eqn:Hp.
  - simpl. rewrite decide_True; [done|]. left. by rewrite Hp.
  - simpl. rewrite IH. destruct (decide (Exists (λ x, p x) l)) as [He|He].
    + simpl. rewrite decide_True; [done|]. by right.
    + simpl. rewrite decide_False; [done|].
      intros [Hx|Hl]%Exists_cons; [by rewrite Hp in Hx|done].
Qed.

Lemma converter_data_em_levanta (sess : Sessao) (r : Linha string) :
  converter_data_em sess r
  = if data_levanta sess r then inl SparkException
    else inr (converter_data r).
Proof.
  unfold converter_data_em, data_levanta, to_date_em.
  destruct (data_venda r) as [s|]; [|done].
  destruct (to_date s); simpl; [done|].
  by destruct (legado sess s || ansi sess).
Qed.

Lemma calcular_valor_total_em_levanta (sess : Sessao) (r : Linha Date) :
  calcular_valor_total_em sess r
  = if total_levanta sess r then inl SparkException
    else inr (calcular_valor_total r).
Proof.
  unfold calcular_valor_total_em, total_levanta.
  destruct (qtd_vendida r) as [q|], (preco_venda r) as [p|];
    rewrite ?andb_false_r; try done.
  destruct (dec_mul (dec_of_Z q) p); simpl.
  - by rewrite andb_false_r.
  - by destruct (ansi sess).
Qed.

(** A job on the dated rows aborts exactly when line 77 raises on some
    extracted row; otherwise it gives the rows with a date. *)
Lemma datar_levanta (sess : Sessao) (df : list (Linha string)) :
  datar sess df
  = if decide (Exists (λ r, data_levanta sess r) df) then inl SparkException
    else inr (filter tem_data
                (converter_data
                   <$> (padronizar <$> (na_fill (valor_idade df) <$> df)))).
Proof.
  unfold datar.
  rewrite (mapM_guard _ (data_levanta sess)
             (λ r, converter_data (padronizar (na_fill (valor_idade df) r)))).
  - case_decide; [done|]. simpl. by rewrite <- !list_fmap_compose.
  - intros r. rewrite converter_data_em_levanta. reflexivity.
Qed.

(** A job on the cleansed rows aborts exactly when line 77 raises on some
    extracted row or line 81 on some row with a date; otherwise it gives
    the cleansed rows. *)
Lemma limpar_em_levanta (sess : Sessao) (df : list (Linha string)) :
  limpar_em sess df
  = if decide (Exists (λ r, data_levanta sess r) df
               ∨ Exists (λ r, total_levanta sess r) (filter data_valida df))
    then inl SparkException else inr (limpar df).
Proof.
  unfold limpar_em. rewrite datar_levanta.
  destruct (decide (Exists (λ r, data_levanta sess r) df)) as [Hd|Hd].
  { rewrite decide_True; [done|]. by left. }
  simpl. rewrite (mapM_guard _ (total_levanta sess) calcular_valor_total)
    by apply calcular_valor_total_em_levanta.
  assert (Exists (λ r, total_levanta sess r)
            (filter tem_data
               (converter_data
                  <$> (padronizar <$> (na_fill (valor_idade df) <$> df))))
          ↔ Exists (λ r, total_levanta sess r) (filter data_valida df)) as Heq.
  { rewrite <- !list_fmap_compose, filter_fmap_comm.
    change (filter _ df) with (filter data_valida df).
    rewrite !Exists_exists. split.
    - intros (x & (r & -> & Hr)%list_elem_of_fmap & Hx). eauto.
    - intros (r & Hr & Hx).
      exists (converter_data (padronizar (na_fill (valor_idade df) r))).
      split; [|exact Hx]. apply list_elem_of_fmap. eauto. }
  destruct (decide (Exists (λ r, total_levanta sess r) (filter data_valida df)))
    as [Ht|Ht].
  - rewrite decide_True by by apply Heq. rewrite decide_True; [done|]. by right.
  - rewrite decide_False by by rewrite Heq.
    rewrite decide_False; [done|]. tauto.
Qed.

Lemma DW_bind_inr {A B} (m : DW A) (f : A → DW B) w x w' :
  m w = (inr x, w') → (m ≫= f) w = f x w'.
Proof. intros H. unfold mbind, DW_bind. by rewrite H. Qed.

Lemma DW_bind_inl {A B} (m : DW A) (f : A → DW B) w e w' :
  m w = (inl e, w') → (m ≫= f) w = (inl e, w').
Proof. intros H. unfold mbind, DW_bind. by rewrite H. Qed.

(** An overwrite by a DataFrame that reads no table of the warehouse:
    whatever the table was, it is the DataFrame's columns and rows. *)
Lemma write_jdbc_inr (df : DataFrame.t) (tabela : string) (w : Armazem) ls :
  DataFrame.fontes df = [] → (∀ w', DataFrame.collect df w' = inr ls) →
  write_jdbc df tabela w
  = (inr tt,
     mkArmazem (<[tabela := mkTabela (DataFrame.columns df) ls]> (tabelas w))
       (historico w ++ [Escrita tabela])).
Proof.
  intros Hf Hc. unfold write_jdbc. rewrite Hc, Hf. simpl.
  by rewrite insert_insert_eq.
Qed.

Lemma write_jdbc_inl (df : DataFrame.t) (tabela : string) (w : Armazem) e :
  DataFrame.fontes df = [] → (∀ w', DataFrame.collect df w' = inl e) →
  write_jdbc df tabela w
  = (inl e,
     mkArmazem (<[tabela := mkTabela (DataFrame.columns df) []]> (tabelas w))
       (historico w ++ [Escrita tabela])).
Proof. intros Hf Hc. unfold write_jdbc. by rewrite Hc, Hf. Qed.

Lemma read_jdbc_Some (tabela : string) (w : Armazem) (t : Tabela) :
  tabelas w !! tabela = Some t →
  read_jdbc tabela w
  = (inr (DataFrame.mk (colunas t) [tabela]
            (λ w', match tabelas w' !! tabela with
                   | Some t' => inr (linhas t')
                   | None => inl (SQLException tabela)
                   end)),
     mkArmazem (tabelas w) (historico w ++ [Leitura tabela])).
Proof. intros H. unfold read_jdbc. by rewrite H. Qed.

(** Lines 116-131 on the cleansed rows and on dimension tables that have
    the columns of the dimension datasets and no other: the four joins
    resolve, the projection does not. *)
Lemma fato_vendas_colunas (df dc dp dl dt : DataFrame.t) :
  DataFrame.columns df = colunas_transformado →
  DataFrame.columns dc = colunas_cliente →
  DataFrame.columns dp = colunas_produto →
  DataFrame.columns dl = colunas_localidade →
  DataFrame.columns dt = colunas_tempo →
  fato_vendas df dc dp dl dt = inl (AnalysisException "sk_cliente").
Proof.
  destruct df, dc, dp, dl, dt. simpl. intros -> -> -> -> ->.
  by vm_compute.
Qed.

(** The load of five DataFrames that have the columns of the datasets of
    [transformar_dados], when the jobs on the dimensions raise nothing. *)
Lemma carregar_dados_sem_sk (dc dp dl dt df : DataFrame.t) (w : Armazem)
    rc rp rl rt :
  DataFrame.columns dc = colunas_cliente →
  DataFrame.columns dp = colunas_produto →
  DataFrame.columns dl = colunas_localidade →
  DataFrame.columns dt = colunas_tempo →
  DataFrame.columns df = colunas_transformado →
  DataFrame.fontes dc = [] → DataFrame.fontes dp = [] →
  DataFrame.fontes dl = [] → DataFrame.fontes dt = [] →
  (∀ w', DataFrame.collect dc w' = inr rc) →
  (∀ w', DataFrame.collect dp w' = inr rp) →
  (∀ w', DataFrame.collect dl w' = inr rl) →
  (∀ w', DataFrame.collect dt w' = inr rt) →
  carregar_dados dc dp dl dt df w
  = (inl (AnalysisException "sk_cliente"),
     mkArmazem
       (<["dim_tempo" := mkTabela colunas_tempo rt]>
          (<["dim_localidade" := mkTabela colunas_localidade rl]>
             (<["dim_produto" := mkTabela colunas_produto rp]>
                (<["dim_cliente" := mkTabela colunas_cliente rc]>
                   (tabelas w)))))
       (historico w ++ pedidos_das_dimensoes)).
Proof.
  intros Cc Cp Cl Ct Cf Fc Fp Fl Ft Rc Rp Rl Rt. unfold carregar_dados.
  erewrite DW_bind_inr by by apply write_jdbc_inr.
  erewrite DW_bind_inr by by apply write_jdbc_inr.
  erewrite DW_bind_inr by by apply write_jdbc_inr.
  erewrite DW_bind_inr by by apply write_jdbc_inr.
  rewrite Cc, Cp, Cl, Ct. cbn [tabelas historico].
  erewrite DW_bind_inr
    by (apply read_jdbc_Some; cbn [tabelas]; by simplify_map_eq).
  erewrite DW_bind_inr
    by (apply read_jdbc_Some; cbn [tabelas]; by simplify_map_eq).
  erewrite DW_bind_inr
    by (apply read_jdbc_Some; cbn [tabelas]; by simplify_map_eq).
  erewrite DW_bind_inr
    by (apply read_jdbc_Some; cbn [tabelas]; by simplify_map_eq).
  erewrite DW_bind_inl
    by (unfold analisar; by rewrite fato_vendas_colunas).
  cbn [tabelas historico]. unfold pedidos_das_dimensoes.
  by rewrite <- !app_assoc.
Qed.

(** A run in which line 77 raises on no row. *)
Lemma main_sem_excecao (sess : Sessao) (df : list (Linha string))
    (w : Armazem) :
  ¬ Exists (λ r, data_levanta sess r) df →
  let t := transformar_dados df in
  main sess df w
  = (inl (AnalysisException "sk_cliente"),
     mkArmazem
       (<["dim_tempo" := mkTabela colunas_tempo (valores_tempo <$> dim_tempo t)]>
          (<["dim_localidade" :=
               mkTabela colunas_localidade
                 (valores_localidade <$> dim_localidade t)]>
             (<["dim_produto" :=
                  mkTabela colunas_produto (valores_produto <$> dim_produto t)]>
                (<["dim_cliente" :=
                     mkTabela colunas_cliente
                       (valores_cliente <$> dim_cliente t)]>
                   (tabelas w)))))
       (historico w ++ pedidos_das_dimensoes)).
Proof.
  intros Hno t. unfold main, transformar_dados_em.
  apply carregar_dados_sem_sk; try done;
    intros w'; cbn [DataFrame.collect]; rewrite datar_levanta;
    by rewrite decide_False.
Qed.

(** A run in which line 77 raises on some row: the job of the first
    write aborts. *)
Lemma main_abortado (sess : Sessao) (df : list (Linha string))
    (w : Armazem) :
  Exists (λ r, data_levanta sess r) df →
  main sess df w
  = (inl SparkException,
     mkArmazem (<["dim_cliente" := mkTabela colunas_cliente []]> (tabelas w))
       (historico w ++ [Escrita "dim_cliente"])).
Proof.
  intros Hex. unfold main, transformar_dados_em, carregar_dados.
  erewrite DW_bind_inl; [reflexivity|].
  apply write_jdbc_inl; [done|]. intros w'. cbn [DataFrame.collect].
  rewrite datar_levanta. by rewrite decide_True.
Qed.

Lemma pedidos_app (w : Armazem) m (es : list Evento) :
  pedidos w (mkArmazem m (historico w ++ es)) = es.
Proof. unfold pedidos. simpl. by rewrite drop_app_length. Qed.

Lemma chave_igual_refl {K} `{EqDecision K} (o : option K) :
  is_Some o → chave_igual o o = true.
Proof. intros [k ->]. simpl. by apply bool_decide_eq_true. Qed.

(** After a run in which nothing raised, every cleansed row with its
    three identifiers finds its four keys in the dimension tables. *)
Lemma chaves_nas_tabelas_da_carga (sess : Sessao) (df : list (Linha string))
    (w : Armazem) (v : Venda) :
  ¬ Exists (λ r, data_levanta sess r) df →
  v ∈ df_transformado (transformar_dados df) →
  is_Some (id_cliente (linha v)) → is_Some (id_produto (linha v)) →
  is_Some (id_localidade (linha v)) →
  chaves_nas_tabelas (main sess df w).2 v.
Proof.
  intros Hno Hv Hc Hp Hl. rewrite (main_sem_excecao sess df w Hno).
  cbn [snd]. simpl in Hv.
  assert (is_Some (data_venda (linha v))) as Hd.
  { rewrite limpar_linhas in Hv.
    apply list_elem_of_fmap in Hv as (r & -> & [Hr _]%list_elem_of_filter).
    exact Hr. }
  repeat split.
  - eexists _, 0%nat. split; [cbn [tabelas]; by simplify_map_eq|].
    split; [done|]. cbn [linhas]. apply Exists_exists.
    exists (valores_cliente (select_cliente v)). split.
    + apply list_elem_of_fmap. eexists. split; [done|].
      apply elem_of_distinct_fmap. eauto.
    + simpl. rewrite chave_igual_refl; done.
  - eexists _, 0%nat. split; [cbn [tabelas]; by simplify_map_eq|].
    split; [done|]. cbn [linhas]. apply Exists_exists.
    exists (valores_produto (select_produto v)). split.
    + apply list_elem_of_fmap. eexists. split; [done|].
      apply elem_of_distinct_fmap. eauto.
    + simpl. rewrite chave_igual_refl; done.
  - eexists _, 0%nat. split; [cbn [tabelas]; by simplify_map_eq|].
    split; [done|]. cbn [linhas]. apply Exists_exists.
    exists (valores_localidade (select_localidade v)). split.
    + apply list_elem_of_fmap. eexists. split; [done|].
      apply elem_of_distinct_fmap. eauto.
    + simpl. rewrite chave_igual_refl; done.
  - eexists _, 0%nat. split; [cbn [tabelas]; by simplify_map_eq|].
    split; [done|]. cbn [linhas]. apply Exists_exists.
    exists (valores_tempo (calendario (data_venda (linha v)))). split.
    + apply list_elem_of_fmap. eexists. split; [done|].
      apply list_elem_of_fmap. eexists. split; [done|].
      apply elem_of_distinct_fmap. eauto.
    + simpl. rewrite chave_igual_refl; done.
Qed.

(** C1 (the code at every input): a run never produces a fact row. The
    loader overwrites each dimension table with the columns of its
    dataset, so the tables read back have no [sk_] column and the
    projection of lines 121-131 raises AnalysisException; the fact table
    stays as it was, also where every cleansed row finds its four keys
    in the dimension tables just written. Two sales to two customers
    leave two cleansed rows, both with all four keys in the tables, and
    no fact table. *)
Theorem C1_nenhuma_linha_de_fato (sess : Sessao)
    (df_origem : list (Linha string)) (w : Armazem) :
  let t := transformar_dados df_origem in
  let r := main sess df_origem w in
  r.1 ≠ inr tt ∧
  tabelas (r.2) !! "fato_vendas" = tabelas w !! "fato_vendas" ∧
  (¬ Exists (λ x, data_levanta sess x) df_origem →
   r.1 = inl (AnalysisException "sk_cliente") ∧
   Forall (λ v, is_Some (id_cliente (linha v)) →
                is_Some (id_produto (linha v)) →
                is_Some (id_localidade (linha v)) →
                chaves_nas_tabelas (r.2) v)
     (df_transformado t)) ∧
  (let r := main spark_3_corrected vendas_dois_clientes armazem_vazio in
   length (df_transformado (transformar_dados vendas_dois_clientes)) = 2%nat ∧
   Forall (chaves_nas_tabelas (r.2))
     (df_transformado (transformar_dados vendas_dois_clientes)) ∧
   r.1 = inl (AnalysisException "sk_cliente") ∧
   tabelas (r.2) !! "fato_vendas" = None).
Proof.
  intros t r.
  assert (r.1 ≠ inr tt
          ∧ tabelas (r.2) !! "fato_vendas" = tabelas w !! "fato_vendas") as Hr.
  { subst r.
    destruct (decide (Exists (λ x, data_levanta sess x) df_origem)) as [He|He].
    - rewrite (main_abortado sess df_origem w He). cbn [fst snd tabelas].
      split; [done|]. by simplify_map_eq.
    - rewrite (main_sem_excecao sess df_origem w He). cbn [fst snd tabelas].
      split; [done|]. by simplify_map_eq. }
  destruct Hr as [Hr1 Hr2]. split; [done|]. split; [done|]. split.
  - intros Hno. split.
    + subst r. by rewrite (main_sem_excecao sess df_origem w Hno).
    + apply Forall_forall. intros v Hv Hc Hp Hl.
      by apply chaves_nas_tabelas_da_carga.
  - assert (¬ Exists (λ x, data_levanta spark_3_corrected x)
                vendas_dois_clientes) as Hno.
    { intros Hex. apply Exists_exists in Hex as (x & _ & Hx).
      unfold data_levanta in Hx. simpl in Hx.
      destruct (data_venda x); [|done]. by rewrite andb_false_r in Hx. }
    split; [done|]. split; [|split].
    + apply Forall_forall. intros v Hv.
      apply chaves_nas_tabelas_da_carga; [done..| | |];
        simpl in Hv; repeat (apply elem_of_cons in Hv as [->|Hv]);
        try (by apply not_elem_of_nil in Hv); by eexists.
    + by rewrite (main_sem_excecao _ _ _ Hno).
    + rewrite (main_sem_excecao _ _ _ Hno). cbn [snd tabelas].
      by simplify_map_eq.
Qed.

(** C8 (the code at every input): in every run the loader asks the
    warehouse for no write of the fact table and ends by raising. When
    no date raises, its requests are the four dimension overwrites and
    then the four read-backs, in the order of the program, each
    dimension table holding afterwards the columns and the rows of its
    dataset whatever it held before; the projection of lines 121-131
    then raises AnalysisException on [sk_cliente], a column no table
    read back has, and line 134 is not reached. When a date raises, the
    first overwrite aborts and nothing else is asked. *)
Theorem C8_fato_nunca_escrito (sess : Sessao)
    (df_origem : list (Linha string)) (w : Armazem) :
  let t := transformar_dados df_origem in
  let r := main sess df_origem w in
  r.1 ≠ inr tt ∧
  (Escrita "fato_vendas" ∉ pedidos w (r.2)) ∧
  (¬ Exists (λ x, data_levanta sess x) df_origem →
   r.1 = inl (AnalysisException "sk_cliente") ∧
   pedidos w (r.2) = pedidos_das_dimensoes ∧
   tabela_com (r.2) "dim_cliente" colunas_cliente
     (valores_cliente <$> dim_cliente t) ∧
   tabela_com (r.2) "dim_produto" colunas_produto
     (valores_produto <$> dim_produto t) ∧
   tabela_com (r.2) "dim_localidade" colunas_localidade
     (valores_localidade <$> dim_localidade t) ∧
   tabela_com (r.2) "dim_tempo" colunas_tempo
     (valores_tempo <$> dim_tempo t)) ∧
  (Exists (λ x, data_levanta sess x) df_origem →
   r.1 = inl SparkException ∧ pedidos w (r.2) = [Escrita "dim_cliente"]).
Proof.
  intros t r. subst r.
  destruct (decide (Exists (λ x, data_levanta sess x) df_origem)) as [He|He].
  - rewrite (main_abortado sess df_origem w He). cbn [fst snd].
    rewrite pedidos_app. split; [done|]. split; [|split; [done|done]].
    intros [=]%list_elem_of_singleton.
  - rewrite (main_sem_excecao sess df_origem w He). cbn [fst snd].
    rewrite pedidos_app. split; [done|]. split; [|split; [|done]].
    + unfold pedidos_das_dimensoes. intros Hin.
      repeat (apply elem_of_cons in Hin as [Hin|Hin]; [discriminate Hin|]).
      by apply not_elem_of_nil in Hin.
    + intros _. split; [done|]. split; [done|].
      repeat split; eexists; (split; [cbn [tabelas]; by simplify_map_eq|done]).
Qed.


(** ** Date validation *)

Lemma digit_bounds (c : ascii) (n : Z) : digit c = Some n → 0 ≤ n ≤ 9.
Proof.
  unfold digit. cbv zeta. case_bool_decide; [|done]. intros [= <-]. lia.
Qed.

Lemma digit_digito (n : Z) : digit (digito n) = Some (n mod 10).
Proof.
  unfold digit, digito. cbv zeta.
  pose proof (Z.mod_pos_bound n 10 ltac:(lia)).
  rewrite nat_ascii_embedding by lia.
  rewrite bool_decide_true by lia. f_equal. lia.
Qed.

Lemma digito_digit (c : ascii) (n k : Z) :
  digit c = Some n → k mod 10 = n → digito k = c.
Proof.
  unfold digit, digito. cbv zeta. case_bool_decide as Hc; [|done].
  intros [= <-] ->.
  replace (Z.to_nat (48 + (Z.of_nat (nat_of_ascii c) - 48)))
    with (nat_of_ascii c) by lia.
  apply ascii_nat_embedding.
Qed.

Lemma days_in_month_bounds y m : 28 ≤ days_in_month y m ≤ 31.
Proof.
  unfold days_in_month. repeat case_bool_decide; try lia.
  destruct (is_leap y); lia.
Qed.

(** The strings that parse are the days of the calendar written as
    yyyy-MM-dd, and each parses to the day it names. *)
Lemma to_date_formatar (s : string) (d : Date) :
  to_date s = Some d ↔ data_existente d ∧ s = formatar d.
Proof.
  split.
  - unfold to_date.
    do 10 (destruct s as [|? s]; [done|]). destruct s; [|done].
    case_bool_decide as Hdash; [|done]. destruct Hdash as [-> ->].
    destruct (digit a) as [y1|] eqn:E1; [|done].
    destruct (digit a0) as [y2|] eqn:E2; [|done].
    destruct (digit a1) as [y3|] eqn:E3; [|done].
    destruct (digit a2) as [y4|] eqn:E4; [|done].
    destruct (digit a4) as [m1|] eqn:E5; [|done].
    destruct (digit a5) as [m2|] eqn:E6; [|done].
    destruct (digit a7) as [d1|] eqn:E7; [|done].
    destruct (digit a8) as [d2|] eqn:E8; [|done].
    simpl. case_bool_decide as Hok; [|done]. intros [= <-].
    pose proof (digit_bounds _ _ E1). pose proof (digit_bounds _ _ E2).
    pose proof (digit_bounds _ _ E3). pose proof (digit_bounds _ _ E4).
    pose proof (digit_bounds _ _ E5). pose proof (digit_bounds _ _ E6).
    pose proof (digit_bounds _ _ E7). pose proof (digit_bounds _ _ E8).
    split; [unfold data_existente; simpl; lia|].
    unfold formatar. cbn [year month dayofmonth].
    repeat f_equal; symmetry;
      (eapply digito_digit; [eassumption|]);
      Z.div_mod_to_equations; lia.
  - intros [(Hy & Hm & Hd) ->]. destruct d as [y m dd]. simpl in *.
    pose proof (days_in_month_bounds y m).
    unfold formatar, to_date. cbn [year month dayofmonth].
    cbv beta iota. rewrite !digit_digito. cbn [mbind option_bind].
    assert (1000 * ((y / 1000) mod 10) + 100 * ((y / 100) mod 10)
            + 10 * ((y / 10) mod 10) + y mod 10 = y) as ->
      by (Z.div_mod_to_equations; lia).
    assert (10 * ((m / 10) mod 10) + m mod 10 = m) as ->
      by (Z.div_mod_to_equations; lia).
    assert (10 * ((dd / 10) mod 10) + dd mod 10 = dd) as ->
      by (Z.div_mod_to_equations; lia).
    by rewrite bool_decide_true by lia.
Qed.

(** What the jobs on the five datasets give: nothing when line 77 raises
    on a row, the rows of the four dimensions when it does not. *)
Lemma avaliacoes_abortam (sess : Sessao) (df : list (Linha string)) :
  Exists (λ r, data_levanta sess r) df →
  avaliacoes sess df = replicate 5 (inl SparkException).
Proof.
  intros Hex. unfold avaliacoes, transformar_dados_em.
  cbn [DataFrame.collect]. rewrite datar_levanta, limpar_em_levanta.
  rewrite !decide_True; [done| by left | done].
Qed.

Lemma avaliacoes_dimensoes (sess : Sessao) (df : list (Linha string)) :
  ¬ Exists (λ r, data_levanta sess r) df →
  let t := transformar_dados df in
  take 4 (avaliacoes sess df)
  = [inr (valores_cliente <$> dim_cliente t);
     inr (valores_produto <$> dim_produto t);
     inr (valores_localidade <$> dim_localidade t);
     inr (valores_tempo <$> dim_tempo t)].
Proof.
  intros Hno t. unfold avaliacoes, transformar_dados_em.
  cbn [DataFrame.collect take]. rewrite datar_levanta.
  by rewrite decide_False.
Qed.

(** C5 (the code at the failing input): the strings line 77 parses are
    the days of the calendar written as yyyy-MM-dd and no others, and a
    job that meets a string that does not parse raises instead of
    dropping the row whenever the session is in ANSI mode or the parser
    of Spark 2 would have read the string: no dataset can then be
    evaluated and the run aborts at its first write. Of five rows, one
    dated 15/01/2024, nothing comes out under the defaults of Spark 4;
    with 2024-1-5 in its place nothing comes out in any session whose
    legacy parser reads that string. Only where nothing raises are the
    cleansed rows the extracted rows whose date parses, each taken
    through the row-level steps, the five rows leaving four, and is
    every dimension row selected from a row that was kept. *)
Theorem C5_datas_invalidas_abortam :
  (∀ s d, to_date s = Some d ↔ data_existente d ∧ s = formatar d) ∧
  (to_date "2024-01-15" = Some (mkDate 2024 1 15)
   ∧ formatar (mkDate 2024 1 15) = "2024-01-15"
   ∧ to_date "2024-1-5" = None ∧ to_date "15/01/2024" = None
   ∧ to_date "2024-02-30" = None ∧ to_date "2024-01-15 10:00:00" = None) ∧
  (∀ sess df w,
     Exists (λ r, data_levanta sess r) df →
     avaliacoes sess df = replicate 5 (inl SparkException) ∧
     limpar_em sess df = inl SparkException ∧
     (main sess df w).1 = inl SparkException ∧
     pedidos w (main sess df w).2 = [Escrita "dim_cliente"]) ∧
  (length cinco_vendas = 5%nat
   ∧ length (filter (λ r, ¬ data_valida r) cinco_vendas) = 1%nat
   ∧ avaliacoes spark_4 cinco_vendas = replicate 5 (inl SparkException)
   ∧ (main spark_4 cinco_vendas armazem_vazio).1 = inl SparkException
   ∧ (∀ sess, legado sess "2024-1-5" = true →
        avaliacoes sess cinco_vendas_sem_zeros
        = replicate 5 (inl SparkException))
   ∧ limpar_em spark_3_corrected cinco_vendas
     = inr (df_transformado (transformar_dados cinco_vendas))
   ∧ (id_venda ∘ linha) <$> df_transformado (transformar_dados cinco_vendas)
     = [Some 1; Some 2; Some 4; Some 5]) ∧
  (∀ sess df,
     ¬ Exists (λ r, data_levanta sess r) df →
     let t := transformar_dados df in
     let v := valor_idade df in
     datar sess df = inr ((linha ∘ limpar_linha v) <$> filter data_valida df) ∧
     take 4 (avaliacoes sess df)
     = [inr (valores_cliente <$> dim_cliente t);
        inr (valores_produto <$> dim_produto t);
        inr (valores_localidade <$> dim_localidade t);
        inr (valores_tempo <$> dim_tempo t)] ∧
     df_transformado t = limpar_linha v <$> filter data_valida df ∧
     (length (df_transformado t)
      + length (filter (λ r, ¬ data_valida r) df) = length df)%nat ∧
     (∀ d, d ∈ dim_cliente t →
        ∃ r, r ∈ df ∧ data_valida r ∧ d = select_cliente (limpar_linha v r)) ∧
     (∀ d, d ∈ dim_produto t →
        ∃ r, r ∈ df ∧ data_valida r ∧ d = select_produto (limpar_linha v r)) ∧
     (∀ d, d ∈ dim_localidade t →
        ∃ r, r ∈ df ∧ data_valida r ∧
             d = select_localidade (limpar_linha v r)) ∧
     (∀ d, d ∈ dim_tempo t →
        ∃ r dia, r ∈ df ∧ data_venda r ≫= to_date = Some dia ∧
                 d = calendario (Some dia))).
Proof.
  split; [apply to_date_formatar|]. split; [by vm_compute|].
  split; [|split].
  - intros sess df w Hex. split; [by apply avaliacoes_abortam|].
    split.
    { rewrite limpar_em_levanta, decide_True; [done|by left]. }
    rewrite (main_abortado sess df w Hex). cbn [fst snd].
    by rewrite pedidos_app.
  - assert (Exists (λ r, data_levanta spark_4 r) cinco_vendas) as Hex.
    { unfold cinco_vendas. do 2 right. by left. }
    split; [done|]. split; [by vm_compute|].
    split; [by apply avaliacoes_abortam|].
    split; [by rewrite (main_abortado _ _ _ Hex)|].
    split; [|split; [|by vm_compute]].
    + intros sess Hleg. apply avaliacoes_abortam.
      unfold cinco_vendas_sem_zeros. do 2 right. left.
      unfold data_levanta. simpl. by rewrite Hleg.
    + rewrite limpar_em_levanta, decide_False; [done|].
      intros [Hex'|Hex']; apply Exists_exists in Hex' as (x & _ & Hx).
      * unfold data_levanta in Hx. simpl in Hx.
        destruct (data_venda x); [|done]. by rewrite andb_false_r in Hx.
      * by unfold total_levanta in Hx.
  - intros sess df Hno t v.
    assert (df_transformado t = limpar_linha v <$> filter data_valida df) as Ht
      by apply limpar_linhas.
    assert (∀ x, x ∈ df_transformado t ↔
                 ∃ r, r ∈ df ∧ data_valida r ∧ x = limpar_linha v r) as Hin.
    { intros x. rewrite Ht, list_elem_of_fmap. split.
      - intros (r & -> & [? ?]%list_elem_of_filter). eauto.
      - intros (r & ? & ? & ->). exists r. by rewrite list_elem_of_filter. }
    split.
    { rewrite datar_levanta, decide_False by done. f_equal.
      rewrite <- !list_fmap_compose, filter_fmap_comm. reflexivity. }
    split; [by apply avaliacoes_dimensoes|]. split; [done|]. split.
    { rewrite Ht, length_fmap. apply filter_complement_length. }
    repeat split.
    + intros d Hd. apply elem_of_distinct_fmap in Hd as (x & Hx & ->).
      apply Hin in Hx as (r & ? & ? & ->). eauto.
    + intros d Hd. apply elem_of_distinct_fmap in Hd as (x & Hx & ->).
      apply Hin in Hx as (r & ? & ? & ->). eauto.
    + intros d Hd. apply elem_of_distinct_fmap in Hd as (x & Hx & ->).
      apply Hin in Hx as (r & ? & ? & ->). eauto.
    + intros d Hd. apply list_elem_of_fmap in Hd as (o & -> & Ho).
      apply elem_of_distinct_fmap in Ho as (x & Hx & ->).
      apply Hin in Hx as (r & Hr & [dia Hdia] & ->).
      exists r, dia. split; [done|]. split; [done|]. simpl. by rewrite Hdia.
Qed.


(** ** Natural keys of the dimensions *)

Lemma NoDup_fmap_iff {A B} (f : A → B) (l : list A) :
  NoDup l →
  NoDup (f <$> l) ↔ ∀ x y, x ∈ l → y ∈ l → f x = f y → x = y.
Proof.
  intros Hnd. split; [|intros Hinj; by apply NoDup_fmap_2_strong].
  induction Hnd as [|a l Ha Hnd IH]; intros Hf x y Hx Hy Hxy.
  { by apply not_elem_of_nil in Hx. }
  rewrite fmap_cons in Hf. apply NoDup_cons in Hf as [Hfa Hf].
  apply elem_of_cons in Hx as [->|Hx], Hy as [->|Hy]; [done| | |by apply IH].
  - exfalso. apply Hfa. rewrite Hxy. by apply list_elem_of_fmap_2.
  - exfalso. apply Hfa. rewrite <- Hxy. by apply list_elem_of_fmap_2.
Qed.

(** The keys of the distinct projections are unique exactly when equal
    keys come with equal projections. *)
Lemma distinct_chave_unica {A B K} `{EqDecision B}
    (f : A → B) (k : B → K) (l : list A) :
  NoDup (k <$> distinct (f <$> l))
  ↔ ∀ x y, x ∈ l → y ∈ l → k (f x) = k (f y) → f x = f y.
Proof.
  rewrite NoDup_fmap_iff by apply NoDup_remove_dups. split.
  - intros Hinj x y Hx Hy Hk.
    apply Hinj; [apply elem_of_distinct_fmap; eauto..|done].
  - intros Hfd b b' (x & Hx & ->)%elem_of_distinct_fmap
      (y & Hy & ->)%elem_of_distinct_fmap Hk.
    by apply Hfd.
Qed.

#[local] Instance calendario_inj : Inj (=) (=) calendario.
Proof. intros d d' Heq. by injection Heq. Qed.

(** C2, as stated, fails: the two sales to customer 100 under two names
    leave two rows of [dim_cliente] with the customer id 100. *)
Lemma C2_counterexample :
  ¬ chaves_naturais_unicas (transformar_dados vendas_nome_alterado) ∧
  DimCliente.id_cliente
    <$> dim_cliente (transformar_dados vendas_nome_alterado)
  = [Some 100; Some 100].
Proof.
  split; [|reflexivity].
  intros [Hc _]. vm_compute in Hc.
  apply NoDup_cons in Hc as [Hc _]. apply Hc. left.
Qed.

(** C2 (amended): No dimension dataset holds the same row twice, and the
    time dimension holds no sale date twice. The customer, product and
    location dimensions are deduplicated on all their columns: each has
    no two rows with the same natural key exactly when, among the
    cleansed rows, equal natural keys come with equal values in the
    columns the dimension selects. *)
Theorem C2_dimensoes_sem_linhas_repetidas (df : list (Linha string)) :
  let t := transformar_dados df in
  NoDup (dim_cliente t) ∧ NoDup (dim_produto t) ∧
  NoDup (dim_localidade t) ∧ NoDup (dim_tempo t) ∧
  NoDup (DimTempo.data_venda <$> dim_tempo t) ∧
  (NoDup (DimCliente.id_cliente <$> dim_cliente t) ↔
   ∀ v v', v ∈ df_transformado t → v' ∈ df_transformado t →
           id_cliente (linha v) = id_cliente (linha v') →
           select_cliente v = select_cliente v') ∧
  (NoDup (DimProduto.id_produto <$> dim_produto t) ↔
   ∀ v v', v ∈ df_transformado t → v' ∈ df_transformado t →
           id_produto (linha v) = id_produto (linha v') →
           select_produto v = select_produto v') ∧
  (NoDup (DimLocalidade.id_localidade <$> dim_localidade t) ↔
   ∀ v v', v ∈ df_transformado t → v' ∈ df_transformado t →
           id_localidade (linha v) = id_localidade (linha v') →
           select_localidade v = select_localidade v').
Proof.
  simpl. repeat split; try apply NoDup_remove_dups.
  - apply NoDup_fmap_2; [apply _|apply NoDup_remove_dups].
  - rewrite <- list_fmap_compose.
    rewrite (list_fmap_ext _ id _ (λ _ _ _, eq_refl)), list_fmap_id.
    apply NoDup_remove_dups.
  - apply (distinct_chave_unica select_cliente DimCliente.id_cliente).
  - apply (distinct_chave_unica select_cliente DimCliente.id_cliente).
  - apply (distinct_chave_unica select_produto DimProduto.id_produto).
  - apply (distinct_chave_unica select_produto DimProduto.id_produto).
  - apply (distinct_chave_unica select_localidade DimLocalidade.id_localidade).
  - apply (distinct_chave_unica select_localidade DimLocalidade.id_localidade).
Qed.

(** ** The calendar columns and the end-to-end scenario *)

(** A parsed date names a month from 1 to 12 and a day of that month. *)
Lemma to_date_bounds (s : string) (d : Date) :
  to_date s = Some d →
  1 ≤ year d ≤ 9999 ∧ 1 ≤ month d ≤ 12 ∧
  1 ≤ dayofmonth d ≤ days_in_month (year d) (month d).
Proof.
  unfold to_date.
  do 10 (destruct s as [|? s]; [done|]). destruct s; [|done].
  case_bool_decide; [|done].
  destruct (digit a) as [y1|] eqn:E1; [|done].
  destruct (digit a0) as [y2|] eqn:E2; [|done].
  destruct (digit a1) as [y3|] eqn:E3; [|done].
  destruct (digit a2) as [y4|] eqn:E4; [|done].
  destruct (digit a4) as [m1|] eqn:E5; [|done].
  destruct (digit a5) as [m2|] eqn:E6; [|done].
  destruct (digit a7) as [d1|] eqn:E7; [|done].
  destruct (digit a8) as [d2|] eqn:E8; [|done].
  simpl. case_bool_decide as Hok; [|done]. intros [= <-]. simpl.
  apply digit_bounds in E1, E2, E3, E4. lia.
Qed.

(** X2: Every row of the time dimension carries the year, month, day and
    quarter of its date: the month is from 1 to 12 and the quarter, from
    1 to 4, is that of the month. *)
Lemma dim_tempo_calendario (df : list (Linha string)) :
  Forall (λ d, ∃ dia, DimTempo.data_venda d = Some dia ∧
                      DimTempo.ano d = Some (year dia) ∧
                      DimTempo.mes d = Some (month dia) ∧
                      DimTempo.dia d = Some (dayofmonth dia) ∧
                      DimTempo.trimestre d = Some ((month dia - 1) / 3 + 1) ∧
                      1 ≤ month dia ≤ 12 ∧ 1 ≤ (month dia - 1) / 3 + 1 ≤ 4)
    (dim_tempo (transformar_dados df)).
Proof.
  apply Forall_forall. intros d Hd. simpl in Hd.
  apply list_elem_of_fmap in Hd as (o & -> & Ho).
  apply elem_of_distinct_fmap in Ho as (v & Hv & ->).
  rewrite limpar_linhas in Hv.
  apply list_elem_of_fmap in Hv as (r & -> & Hr).
  apply list_elem_of_filter in Hr as [[dia Hdia] _]. simpl.
  rewrite Hdia. exists dia. repeat split; try done;
    destruct (data_venda r) as [s|]; try done; simpl in Hdia;
    apply to_date_bounds in Hdia as (_ & Hm & _).
  - lia.
  - lia.
  - apply Z.le_trans with (0 + 1); [lia|].
    apply Z.add_le_mono_r, Z.div_pos; lia.
  - assert ((month dia - 1) / 3 < 4); [|lia].
    apply Z.div_lt_upper_bound; lia.
Qed.

(** The scenario, run in a session that raises on no date, on a
    warehouse whose customer dimension had a surrogate key column: 2
    customers, 2 products, 1 location, 2 dates and 2 cleansed rows, the
    item with the unparseable date gone and the missing cost filled with
    0; the customer table is left with the five columns of its dataset
    and two rows, the load raises, and the fact table is as it was. The
    sample database, one of whose sales is dated 20/02/2024, runs to the
    same error where no date raises and aborts under Spark 4. *)
Example cenario_ponta_a_ponta :
  let t := transformar_dados cenario in
  let r := main spark_3_corrected cenario armazem_com_sk in
  length (dim_cliente t) = 2%nat ∧ length (dim_produto t) = 2%nat ∧
  length (dim_localidade t) = 1%nat ∧ length (dim_tempo t) = 2%nat ∧
  (id_venda ∘ linha) <$> df_transformado t = [Some 1; Some 2] ∧
  (λ v, unscaled <$> custo_compra_unitario (linha v)) <$> df_transformado t
  = [Some 250; Some 0] ∧
  (λ v, unscaled <$> valor_total v) <$> df_transformado t
  = [Some 3002; Some 1990] ∧
  (λ v, scale <$> valor_total v) <$> df_transformado t
  = [Some 2%nat; Some 2%nat] ∧
  DimCliente.idade <$> dim_cliente t = [Some 20; Some 20] ∧
  r.1 = inl (AnalysisException "sk_cliente") ∧
  colunas <$> tabelas (r.2) !! "dim_cliente" = Some colunas_cliente ∧
  (length ∘ linhas) <$> tabelas (r.2) !! "dim_cliente" = Some 2%nat ∧
  tabelas (r.2) !! "fato_vendas" = tabelas armazem_com_sk !! "fato_vendas" ∧
  (etl spark_3_corrected crm_exemplo armazem_vazio).1
  = inl (AnalysisException "sk_cliente") ∧
  (etl spark_4 crm_exemplo armazem_vazio).1 = inl SparkException.
Proof. by vm_compute. Qed.

(** ** Extraction *)

Section left_join.
Context {A B K : Type} `{EqDecision K}.
Context (ka : A → option K) (kb : B → option K).

Lemma left_join_cons a l r :
  left_join ka kb (a :: l) r = left_join ka kb [a] r ++ left_join ka kb l r.
Proof. unfold left_join. by rewrite !bind_cons, app_nil_r. Qed.

Lemma left_join_singleton a r :
  left_join ka kb [a] r
  = match pares ka kb a r with
    | [] => [(a, None)]
    | bs => (λ b, (a, Some b)) <$> bs
    end.
Proof. unfold left_join. by rewrite bind_singleton. Qed.

Lemma left_join_singleton_length a r :
  length (left_join ka kb [a] r) = (1 `max` length (pares ka kb a r))%nat.
Proof.
  rewrite left_join_singleton. destruct (pares ka kb a r) as [|b bs]; [done|].
  rewrite length_fmap. simpl. lia.
Qed.

Lemma left_join_length l r :
  length (left_join ka kb l r)
  = sum_list ((λ a, 1 `max` length (pares ka kb a r))%nat <$> l).
Proof.
  induction l as [|a l IH]; [done|].
  by rewrite left_join_cons, length_app, left_join_singleton_length, IH.
Qed.

Lemma pares_length_unica a r :
  NoDup (omap kb r) → (length (pares ka kb a r) ≤ 1)%nat.
Proof.
  intros Hnd.
  destruct (decide (Exists (λ b, chave_igual (ka a) (kb b)) r)) as [Hex|Hex].
  - by destruct (pares_unica ka kb a r Hnd Hex) as [b ->].
  - rewrite pares_nil by done. simpl. lia.
Qed.

Lemma elem_of_left_join x l r :
  x ∈ left_join ka kb l r ↔
  x.1 ∈ l ∧
  match x.2 with
  | Some b => b ∈ r ∧ chave_igual (ka x.1) (kb b)
  | None => ¬ Exists (λ b, chave_igual (ka x.1) (kb b)) r
  end.
Proof.
  destruct x as [a' o]. simpl. induction l as [|a l IH].
  { split; [by intros ?%not_elem_of_nil | by intros [?%not_elem_of_nil _]]. }
  rewrite left_join_cons, elem_of_app, IH, elem_of_cons, left_join_singleton.
  assert ((a', o) ∈ match pares ka kb a r with
                    | [] => [(a, None)]
                    | bs => (λ b, (a, Some b)) <$> bs
                    end ↔
          a' = a ∧ match o with
                   | Some b => b ∈ r ∧ chave_igual (ka a') (kb b)
                   | None => ¬ Exists (λ b, chave_igual (ka a') (kb b)) r
                   end) as ->; [|tauto].
  destruct (pares ka kb a r) as [|b0 bs] eqn:Hp.
  - rewrite list_elem_of_singleton. split.
    + intros [= -> ->]. split; [done|]. intros Hex.
      destruct (decide (Exists (λ b, chave_igual (ka a) (kb b)) r)); [|done].
      apply Exists_exists in Hex as (b & Hb & Hk).
      assert (b ∈ pares ka kb a r) as Hin by (by apply list_elem_of_filter).
      rewrite Hp in Hin. by apply not_elem_of_nil in Hin.
    + intros [-> Ho]. destruct o as [b|]; [|done]. destruct Ho as [Hb Hk].
      assert (b ∈ pares ka kb a r) as Hin by (by apply list_elem_of_filter).
      rewrite Hp in Hin. by apply not_elem_of_nil in Hin.
  - rewrite <- Hp, list_elem_of_fmap. split.
    + intros (b & [= -> ->] & Hb).
      apply list_elem_of_filter in Hb as [? ?]. done.
    + intros [-> Ho]. destruct o as [b|].
      * destruct Ho as [Hb Hk]. exists b. split; [done|].
        by apply list_elem_of_filter.
      * exfalso. apply Ho, (pares_Exists ka kb a r b0). rewrite Hp. left.
Qed.

End left_join.

(** Where a joined row comes from: one row of each of the seven tables,
    tied by the six join conditions. *)
Lemma elem_of_juntar_tabelas crm v iv p cp c cc l :
  (v, iv, p, cp, c, cc, l) ∈ juntar_tabelas crm ↔
  (v ∈ vendas crm ∧ iv ∈ item_vendas crm ∧ p ∈ produto crm ∧
   cp ∈ categoria_produto crm ∧ c ∈ cliente crm ∧
   cc ∈ categoria_cliente crm ∧ l ∈ localidade crm) ∧
  chave_igual (Vendas.id_venda v) (ItemVendas.id_venda iv) ∧
  chave_igual (ItemVendas.id_produto iv) (Produto.id_produto p) ∧
  chave_igual (Produto.id_categoria_produto p)
    (CategoriaProduto.id_categoria_produto cp) ∧
  chave_igual (Vendas.id_cliente v) (Cliente.id_cliente c) ∧
  chave_igual (Cliente.id_categoria_cliente c)
    (CategoriaCliente.id_categoria_cliente cc) ∧
  chave_igual (Cliente.id_localidade c) (Localidade.id_localidade l).
Proof.
  unfold juntar_tabelas. rewrite !elem_of_join. simpl. tauto.
Qed.

(** Where an extracted row comes from. *)
Lemma elem_of_extrair_dados crm r :
  r ∈ extrair_dados crm ↔
  ∃ x pf, x ∈ juntar_tabelas crm ∧
          match pf with
          | Some f => f ∈ produto_fornecedor crm ∧
                      chave_igual (produto_do_item x)
                        (ProdutoFornecedor.id_produto f)
          | None => custos_do_item crm x = []
          end ∧
          r = vendas_completas (x, pf).
Proof.
  unfold extrair_dados. rewrite list_elem_of_fmap. split.
  - intros ([x pf] & -> & Hx). apply elem_of_left_join in Hx as [Hx Hpf].
    simpl in *. exists x, pf. split; [done|]. split; [|done].
    destruct pf; [done|]. by apply pares_nil.
  - intros (x & pf & Hx & Hpf & ->). exists (x, pf). split; [done|].
    apply elem_of_left_join. simpl. split; [done|].
    destruct pf as [f|]; [done|]. intros Hex.
    apply Exists_exists in Hex as (b & Hb & Hk).
    assert (b ∈ custos_do_item crm x) as Hin by (by apply list_elem_of_filter).
    rewrite Hpf in Hin. by apply not_elem_of_nil in Hin.
Qed.

Lemma extrair_dados_chaves (crm : CRM) (r : Linha string) :
  r ∈ extrair_dados crm →
  is_Some (id_venda r) ∧ is_Some (id_produto r) ∧
  is_Some (id_cliente r) ∧ is_Some (id_localidade r).
Proof.
  intros Hr.
  apply elem_of_extrair_dados in Hr as ([[[[[[v iv] p] cp] c] cc] l] & pf & Hx & _ & ->).
  apply elem_of_juntar_tabelas in Hx as (_ & K1 & K2 & _ & K4 & _ & K6).
  apply chave_igual_Some in K1 as (? & E1 & _), K2 as (? & E2 & _),
    K4 as (? & _ & E4), K6 as (? & _ & E6).
  simpl. rewrite E1, E2, E4, E6. eauto.
Qed.

(** X3: Every extracted row carries a sale id, a product id, a customer
    id and a location id: the inner joins keep no row with a null in a
    column they compare. *)
Lemma extrair_dados_chaves_nao_nulas (crm : CRM) :
  Forall (λ r, is_Some (id_venda r) ∧ is_Some (id_produto r) ∧
               is_Some (id_cliente r) ∧ is_Some (id_localidade r))
    (extrair_dados crm).
Proof. apply Forall_forall, extrair_dados_chaves. Qed.

Lemma sum_list_max_1_ge {A} (f : A → nat) (l : list A) :
  (length l ≤ sum_list ((λ a, 1 `max` f a)%nat <$> l))%nat.
Proof. induction l as [|a l IH]; cbn -[Nat.max]; lia. Qed.

Lemma sum_list_max_1_eq {A} (f : A → nat) (l : list A) :
  (∀ a, f a ≤ 1)%nat → sum_list ((λ a, 1 `max` f a)%nat <$> l) = length l.
Proof.
  intros Hf. induction l as [|a l IH]; [done|].
  cbn -[Nat.max]. specialize (Hf a). lia.
Qed.

(** X4: The left join on the supplier costs drops no joined row and may
    repeat one: a joined row is extracted once for each supplier cost of
    its product, and once with a null cost when the product has none. So
    the extraction has at least as many rows as the inner joins give, and
    exactly as many when no product has two supplier costs. *)
Lemma extrair_dados_left_join (crm : CRM) :
  length (extrair_dados crm)
  = sum_list ((λ x, 1 `max` length (custos_do_item crm x))%nat
                <$> juntar_tabelas crm) ∧
  (length (juntar_tabelas crm) ≤ length (extrair_dados crm))%nat ∧
  (∀ x, x ∈ juntar_tabelas crm → custos_do_item crm x = [] →
        vendas_completas (x, None) ∈ extrair_dados crm ∧
        custo_compra_unitario (vendas_completas (x, None)) = None) ∧
  (NoDup (omap ProdutoFornecedor.id_produto (produto_fornecedor crm)) →
   length (extrair_dados crm) = length (juntar_tabelas crm)).
Proof.
  assert (length (extrair_dados crm)
          = sum_list ((λ x, 1 `max` length (custos_do_item crm x))%nat
                        <$> juntar_tabelas crm)) as Hlen.
  { unfold extrair_dados. rewrite length_fmap. apply left_join_length. }
  split; [done|]. split; [rewrite Hlen; apply sum_list_max_1_ge|]. split.
  - intros x Hx Hno. split.
    + apply elem_of_extrair_dados. by exists x, None.
    + by destruct x as [[[[[[v iv] p] cp] c] cc] l].
  - intros Hnd. rewrite Hlen. apply sum_list_max_1_eq.
    intros x. by apply pares_length_unica.
Qed.

Lemma NoDup_omap_eq {A K} (k : A → option K) (l : list A) x y a :
  NoDup (omap k l) → x ∈ l → y ∈ l → k x = Some a → k y = Some a → x = y.
Proof.
  induction l as [|z l IH]; intros Hnd Hx Hy Kx Ky.
  { by apply not_elem_of_nil in Hx. }
  assert (∀ w, w ∈ l → k w = Some a → k z = Some a → False) as Hfresh.
  { intros w Hw Kw Kz. simpl in Hnd. rewrite Kz in Hnd.
    apply NoDup_cons in Hnd as [Hnot _]. apply Hnot, list_elem_of_omap. eauto. }
  assert (NoDup (omap k l)) as Hnd'.
  { simpl in Hnd. destruct (k z); [by apply NoDup_cons in Hnd as [_ ?]|done]. }
  apply elem_of_cons in Hx as [->|Hx], Hy as [->|Hy]; [done| | |by apply IH].
  - exfalso. by apply (Hfresh y).
  - exfalso. by apply (Hfresh x).
Qed.

(** Two rows of a keyed table that one key value finds are one row. *)
Lemma chave_igual_mesma_linha {A} (k : A → option Z) (l : list A) o x y :
  NoDup (omap k l) → x ∈ l → y ∈ l →
  chave_igual o (k x) → chave_igual o (k y) → x = y.
Proof.
  intros Hnd Hx Hy (a & -> & Kx)%chave_igual_Some (a' & [= <-] & Ky)%chave_igual_Some.
  by apply (NoDup_omap_eq k l x y a).
Qed.

Lemma dependencias_da_extracao (crm : CRM) (r r' : Linha string) :
  chaves_primarias crm →
  r ∈ extrair_dados crm → r' ∈ extrair_dados crm →
    (id_cliente r = id_cliente r' →
     nome_cliente r = nome_cliente r' ∧ idade r = idade r' ∧
     genero r = genero r' ∧
     nome_categoria_cliente r = nome_categoria_cliente r') ∧
    (id_produto r = id_produto r' →
     nome_produto r = nome_produto r' ∧
     nome_categoria_produto r = nome_categoria_produto r') ∧
    (id_localidade r = id_localidade r' →
     cidade r = cidade r' ∧ estado r = estado r' ∧ regiao r = regiao r').
Proof.
  intros (Hp & Hcp & Hc & Hcc & Hl) Hr Hr'.
  apply elem_of_extrair_dados
    in Hr as ([[[[[[v iv] p] cp] c] cc] l] & pf & Hx & _ & ->).
  apply elem_of_extrair_dados
    in Hr' as ([[[[[[v' iv'] p'] cp'] c'] cc'] l'] & pf' & Hx' & _ & ->).
  apply elem_of_juntar_tabelas
    in Hx as ((_ & _ & Ip & Icp & Ic & Icc & Il) & _ & K2 & K3 & K4 & K5 & K6).
  apply elem_of_juntar_tabelas
    in Hx' as ((_ & _ & Ip' & Icp' & Ic' & Icc' & Il')
               & _ & K2' & K3' & K4' & K5' & K6').
  simpl. split; [|split].
  - intros Hid.
    assert (c = c') as <-.
    { apply (chave_igual_mesma_linha Cliente.id_cliente (cliente crm)
               (Vendas.id_cliente v)); try done.
      by rewrite <- Hid. }
    assert (cc = cc') as <-; [|done].
    by apply (chave_igual_mesma_linha CategoriaCliente.id_categoria_cliente
                (categoria_cliente crm) (Cliente.id_categoria_cliente c)).
  - intros Hid. rewrite <- Hid in K2'.
    assert (p = p') as <-.
    { by apply (chave_igual_mesma_linha Produto.id_produto (produto crm)
                  (ItemVendas.id_produto iv)). }
    assert (cp = cp') as <-; [|done].
    by apply (chave_igual_mesma_linha CategoriaProduto.id_categoria_produto
                (categoria_produto crm) (Produto.id_categoria_produto p)).
  - intros Hid.
    assert (l = l') as <-; [|done].
    apply (chave_igual_mesma_linha Localidade.id_localidade (localidade crm)
             (Cliente.id_localidade c)); try done.
    by rewrite <- Hid.
Qed.

(** X5: When the identifiers of the product, category, customer and
    location tables are primary keys, the extracted rows are consistent:
    two rows with the same customer id agree on the customer's name, age,
    gender and category, two with the same product id on the product's
    name and category, two with the same location id on city, state and
    region. *)
Lemma extrair_dados_dependencias (crm : CRM) :
  chaves_primarias crm →
  ∀ r r', r ∈ extrair_dados crm → r' ∈ extrair_dados crm →
    (id_cliente r = id_cliente r' →
     nome_cliente r = nome_cliente r' ∧ idade r = idade r' ∧
     genero r = genero r' ∧
     nome_categoria_cliente r = nome_categoria_cliente r') ∧
    (id_produto r = id_produto r' →
     nome_produto r = nome_produto r' ∧
     nome_categoria_produto r = nome_categoria_produto r') ∧
    (id_localidade r = id_localidade r' →
     cidade r = cidade r' ∧ estado r = estado r' ∧ regiao r = regiao r').
Proof. intros Hpk r r'. by apply dependencias_da_extracao. Qed.

Lemma extrair_dados_dependencias_witness :
  chaves_primarias crm_exemplo ∧
  ∀ r r', r ∈ extrair_dados crm_exemplo → r' ∈ extrair_dados crm_exemplo →
    (id_cliente r = id_cliente r' →
     nome_cliente r = nome_cliente r' ∧ idade r = idade r' ∧
     genero r = genero r' ∧
     nome_categoria_cliente r = nome_categoria_cliente r') ∧
    (id_produto r = id_produto r' →
     nome_produto r = nome_produto r' ∧
     nome_categoria_produto r = nome_categoria_produto r') ∧
    (id_localidade r = id_localidade r' →
     cidade r = cidade r' ∧ estado r = estado r' ∧ regiao r = regiao r').
Proof.
  assert (chaves_primarias crm_exemplo) as Hpk.
  { unfold chaves_primarias.
    repeat split; apply (bool_decide_unpack _); vm_compute; exact I. }
  split; [exact Hpk|]. exact (extrair_dados_dependencias crm_exemplo Hpk).
Defined.

(** ** What the cleansing leaves *)

Lemma upper_ascii_idemp (c : ascii) :
  upper_ascii (upper_ascii c) = upper_ascii c.
Proof. destruct c as [[] [] [] [] [] [] [] []]; reflexivity. Qed.

Lemma upper_idemp (s : string) : upper (upper s) = upper s.
Proof.
  induction s as [|c s IH]; [done|]. simpl. by rewrite upper_ascii_idemp, IH.
Qed.

Lemma padronizar_genero_idemp (g : option string) :
  padronizar_genero (padronizar_genero g) = padronizar_genero g.
Proof.
  destruct g as [s|]; [|done]. simpl.
  repeat case_decide; subst; try done; simpl; by rewrite !decide_False.
Qed.

Lemma padronizar_genero_codigos (g : option string) :
  padronizar_genero g ≠ Some "M" ∧ padronizar_genero g ≠ Some "F".
Proof.
  destruct g as [s|]; [|done]. simpl.
  repeat case_decide; subst; split; congruence.
Qed.

Lemma upper_ascii_maiuscula (c : ascii) :
  ¬ (97 ≤ nat_of_ascii (upper_ascii c) ≤ 122)%nat.
Proof. destruct c as [[] [] [] [] [] [] [] []]; vm_compute; lia. Qed.

Lemma upper_sem_minusculas (s : string) : sem_minusculas (upper s).
Proof.
  induction s as [|c s IH]; [done|]. simpl.
  split; [apply upper_ascii_maiuscula | exact IH].
Qed.

Lemma upper_ascii_so_ascii (c : ascii) :
  (nat_of_ascii c < 128)%nat → (nat_of_ascii (upper_ascii c) < 128)%nat.
Proof. destruct c as [[] [] [] [] [] [] [] []]; vm_compute; lia. Qed.

Lemma upper_so_ascii (s : string) : so_ascii s → so_ascii (upper s).
Proof.
  induction s as [|c s IH]; [done|]. simpl. intros [Hc Hs].
  split; [by apply upper_ascii_so_ascii | by apply IH].
Qed.

(** X6: On a row whose state is written in ASCII, standardising twice is
    standardising once: the gender labels and the upper-cased state are
    left alone by a second pass, as is every other column, and the state
    is still ASCII. *)
Lemma padronizar_idempotente (r : Linha string) :
  from_option so_ascii True (estado r) →
  padronizar (padronizar r) = padronizar r
  ∧ from_option so_ascii True (estado (padronizar r)).
Proof.
  intros Hascii. split.
  - unfold padronizar. simpl. rewrite padronizar_genero_idemp. f_equal.
    destruct (estado r) as [e|]; [|done]. simpl. by rewrite upper_idemp.
  - simpl. destruct (estado r) as [e|]; [|done]. simpl in *.
    by apply upper_so_ascii.
Qed.

Lemma padronizar_idempotente_witness :
  let r := item 1 "2024-01-15" 100 "Ana" (Some 20) in
  from_option so_ascii True (estado r)
  ∧ padronizar (padronizar r) = padronizar r
  ∧ from_option so_ascii True (estado (padronizar r)).
Proof.
  assert (from_option so_ascii True
            (estado (item 1 "2024-01-15" 100 "Ana" (Some 20)))) as H.
  { simpl. repeat split; vm_compute; lia. }
  split; [exact H|].
  exact (padronizar_idempotente (item 1 "2024-01-15" 100 "Ana" (Some 20)) H).
Defined.

(** X7: No cleansed row has a null in the age, gender, product name,
    unit cost or sale date column; its gender is never left as the code
    "M" or "F"; and a state written in ASCII has none of the letters a
    to z left. *)
Lemma limpar_sem_nulos (df : list (Linha string)) :
  Forall (λ v, is_Some (idade (linha v)) ∧ is_Some (genero (linha v)) ∧
               is_Some (nome_produto (linha v)) ∧
               is_Some (custo_compra_unitario (linha v)) ∧
               is_Some (data_venda (linha v)) ∧
               genero (linha v) ≠ Some "M" ∧ genero (linha v) ≠ Some "F" ∧
               ∀ e, estado (linha v) = Some e → so_ascii e →
                    sem_minusculas e)
    (df_transformado (transformar_dados df)).
Proof.
  simpl. rewrite limpar_linhas. apply Forall_fmap, Forall_forall.
  intros r [Hdata _]%list_elem_of_filter. simpl.
  pose proof (padronizar_genero_codigos
                (Some (default "Não informado" (genero r)))) as [HM HF].
  repeat split; eauto.
  - simpl. repeat case_decide; eauto.
  - intros e He _. destruct (estado r) as [e'|]; [|done].
    simpl in He. injection He as <-. apply upper_sem_minusculas.
Qed.

(** ** The fill value among the ages *)

Lemma quot_2_entre (a b lo hi : Z) :
  lo ≤ a ≤ hi → lo ≤ b ≤ hi → lo ≤ (a + b) ÷ 2 ≤ hi.
Proof.
  intros Ha Hb.
  destruct (Z.le_gt_cases 0 (a + b)) as [Hs|Hs].
  - rewrite Z.quot_div_nonneg by lia.
    pose proof (Z.div_mod (a + b) 2 ltac:(lia)).
    pose proof (Z.mod_pos_bound (a + b) 2 ltac:(lia)). lia.
  - replace (a + b) with (- (- (a + b))) by lia.
    rewrite Z.quot_opp_l by lia. rewrite Z.quot_div_nonneg by lia.
    pose proof (Z.div_mod (- (a + b)) 2 ltac:(lia)).
    pose proof (Z.mod_pos_bound (- (a + b)) 2 ltac:(lia)). lia.
Qed.

Lemma median_entre (xs : list Z) (lo hi : Z) (m : Q) :
  Forall (λ a, Z.abs a < 2 ^ 52) xs →
  (∀ a, a ∈ xs → lo ≤ a ≤ hi) → median xs = Some m → lo ≤ int m ≤ hi.
Proof.
  intros Hbits Hall Hm.
  destruct (int_median xs m Hbits Hm) as (a & b & Ha & Hb & ->).
  apply quot_2_entre; apply Hall;
    rewrite <- (merge_sort_Permutation Z.le xs);
    apply list_elem_of_lookup; eauto.
Qed.

Lemma valor_idade_entre (df : list (Linha string)) (lo hi : Z) :
  (∃ r, r ∈ df ∧ is_Some (idade r)) →
  Forall (λ a, Z.abs a < 2 ^ 52 ∧ lo ≤ a ≤ hi) (omap idade df) →
  lo ≤ valor_idade df ≤ hi.
Proof.
  intros (r0 & Hr0 & Hage) Hall.
  unfold valor_idade, idade_mediana.
  destruct (median_is_Some (omap idade df)) as [m Hm].
  { by eapply omap_idade_not_nil. }
  rewrite Hm. apply (median_entre (omap idade df)); [| |done].
  - eapply Forall_impl; [exact Hall|]. by intros a [? _].
  - rewrite Forall_forall in Hall. intros a Ha. by apply Hall.
Qed.

(** X8: When some age is not null and the ages are below 2 ^ 52 in
    magnitude, the value that fills the missing ages lies between the
    least and the greatest age on record, so the ages of the cleansed
    rows stay within the bounds the recorded ages keep. *)
Lemma valor_idade_entre_idades (df : list (Linha string)) (lo hi : Z) :
  (∃ r, r ∈ df ∧ is_Some (idade r)) →
  Forall (λ a, Z.abs a < 2 ^ 52 ∧ lo ≤ a ≤ hi) (omap idade df) →
  lo ≤ valor_idade df ≤ hi ∧
  Forall (λ v, ∃ a, idade (linha v) = Some a ∧ lo ≤ a ≤ hi)
    (df_transformado (transformar_dados df)).
Proof.
  intros Hsome Hall.
  assert (lo ≤ valor_idade df ≤ hi) as Hv by by apply valor_idade_entre.
  split; [done|]. simpl. rewrite limpar_linhas.
  apply Forall_fmap, Forall_forall. intros r [_ Hr]%list_elem_of_filter.
  simpl. destruct (idade r) as [a|] eqn:Ha; simpl; [|eauto].
  exists a. split; [done|]. rewrite Forall_forall in Hall.
  apply (Hall a). apply list_elem_of_omap. eauto.
Qed.

Lemma valor_idade_entre_idades_witness :
  20 ≤ valor_idade vendas_tres_idades ≤ 60 ∧
  Forall (λ v, ∃ a, idade (linha v) = Some a ∧ 20 ≤ a ≤ 60)
    (df_transformado (transformar_dados vendas_tres_idades)).
Proof.
  apply (valor_idade_entre_idades vendas_tres_idades 20 60).
  - exists (item 1 "2024-01-15" 100 "Ana" (Some 20)).
    split; [left | by eexists].
  - change (omap idade vendas_tres_idades) with [20; 60; 41].
    repeat constructor; lia.
Defined.

(** ** The total of a line *)

Lemma round_scale (x : Decimal) (d : nat) : (scale (round x d) ≤ d)%nat.
Proof. unfold round. simpl. lia. Qed.

(** X9: The total of a cleansed row is null when its quantity or its
    unit price is; a total that is not null has at most two decimal
    digits, and rounding it to two digits again changes neither what it
    is worth nor its scale. *)
Lemma valor_total_duas_casas (df : list (Linha string)) :
  Forall (λ v,
            (qtd_vendida (linha v) = None ∨ preco_venda (linha v) = None →
             valor_total v = None) ∧
            ∀ t, valor_total v = Some t →
                 (scale t ≤ 2)%nat ∧ unscaled (round t 2) = unscaled t
                 ∧ scale (round t 2) = scale t)
    (df_transformado (transformar_dados df)).
Proof.
  eapply Forall_impl; [apply valor_total_da_linha|].
  intros v Hv. rewrite Hv. split.
  - intros [->| ->]; [done|]. by destruct (qtd_vendida (linha v)).
  - intros t Ht.
    destruct (qtd_vendida (linha v)) as [q|]; [|done].
    destruct (preco_venda (linha v)) as [p|]; [|done]. simpl in Ht.
    destruct (dec_mul (dec_of_Z q) p) as [x|]; [|done].
    injection Ht as <-.
    split; [apply round_scale|]. apply round_small, round_scale.
Qed.

(** ** Sizes *)

Lemma length_distinct {A} `{EqDecision A} (l : list A) :
  (length (distinct l) ≤ length l)%nat.
Proof.
  apply submseteq_length, NoDup_submseteq; [apply NoDup_remove_dups|].
  intros x. unfold distinct. by rewrite elem_of_remove_dups.
Qed.

(** X10: No dimension has more rows than there are cleansed rows, and
    there are no more cleansed rows than extracted rows. *)
Lemma transformar_dados_tamanhos (df : list (Linha string)) :
  let t := transformar_dados df in
  (length (dim_cliente t) ≤ length (df_transformado t))%nat ∧
  (length (dim_produto t) ≤ length (df_transformado t))%nat ∧
  (length (dim_localidade t) ≤ length (df_transformado t))%nat ∧
  (length (dim_tempo t) ≤ length (df_transformado t))%nat ∧
  (length (df_transformado t) ≤ length df)%nat.
Proof.
  simpl. repeat split.
  - etrans; [apply length_distinct|]. by rewrite length_fmap.
  - etrans; [apply length_distinct|]. by rewrite length_fmap.
  - etrans; [apply length_distinct|]. by rewrite length_fmap.
  - rewrite length_fmap. etrans; [apply length_distinct|].
    by rewrite length_fmap.
  - rewrite limpar_linhas, length_fmap. apply length_filter.
Qed.

(** X11: When no extracted row has a date that parses and the session
    raises on none (as when every date is null), the five datasets are
    empty, and the run leaves each dimension table with the columns of
    its dataset and no row, whatever it held. *)
Lemma main_sem_datas_validas (sess : Sessao) (df : list (Linha string))
    (w : Armazem) :
  Forall (λ r, ¬ data_valida r) df →
  ¬ Exists (λ r, data_levanta sess r) df →
  transformar_dados df = mkTransformado [] [] [] [] [] ∧
  let w' := (main sess df w).2 in
  tabelas w' !! "dim_cliente" = Some (mkTabela colunas_cliente []) ∧
  tabelas w' !! "dim_produto" = Some (mkTabela colunas_produto []) ∧
  tabelas w' !! "dim_localidade" = Some (mkTabela colunas_localidade []) ∧
  tabelas w' !! "dim_tempo" = Some (mkTabela colunas_tempo []).
Proof.
  intros Hno Hraise.
  assert (limpar df = []) as Hl.
  { rewrite limpar_linhas.
    replace (filter data_valida df) with (@nil (Linha string)); [done|].
    symmetry. apply filter_nenhum. exact Hno. }
  assert (transformar_dados df = mkTransformado [] [] [] [] []) as Ht.
  { unfold transformar_dados. by rewrite Hl. }
  split; [done|]. rewrite (main_sem_excecao sess df w Hraise), Ht.
  cbn [snd tabelas]. repeat split; by simplify_map_eq.
Qed.

Lemma main_sem_datas_validas_witness :
  let df := [item 1 "15/01/2024" 100 "Ana" (Some 80)] in
  Forall (λ r, ¬ data_valida r) df ∧
  ¬ Exists (λ r, data_levanta spark_3_corrected r) df ∧
  transformar_dados df = mkTransformado [] [] [] [] [] ∧
  let w' := (main spark_3_corrected df armazem_com_sk).2 in
  tabelas w' !! "dim_cliente" = Some (mkTabela colunas_cliente []) ∧
  tabelas w' !! "dim_produto" = Some (mkTabela colunas_produto []) ∧
  tabelas w' !! "dim_localidade" = Some (mkTabela colunas_localidade []) ∧
  tabelas w' !! "dim_tempo" = Some (mkTabela colunas_tempo []).
Proof.
  assert (Forall (λ r, ¬ data_valida r)
            [item 1 "15/01/2024" 100 "Ana" (Some 80)]) as Hno.
  { repeat constructor. intros [d Hd]. discriminate Hd. }
  assert (¬ Exists (λ r, data_levanta spark_3_corrected r)
              [item 1 "15/01/2024" 100 "Ana" (Some 80)]) as Hraise.
  { intros [Hx|Hx%Exists_nil]%Exists_cons; [|done]. by vm_compute in Hx. }
  split; [exact Hno|]. split; [exact Hraise|].
  exact (main_sem_datas_validas spark_3_corrected
           [item 1 "15/01/2024" 100 "Ana" (Some 80)] armazem_com_sk
           Hno Hraise).
Defined.

(** ** The projection of the fact table *)

(** X12: Lines 116-131 resolve when each dimension table read back has a
    surrogate key column before the columns of its dataset: the four
    joins and the projection go through, and the result has the nine
    columns of the fact table. (After the overwrites of lines 101-104
    the tables have no such column, and the projection raises.) *)
Lemma fato_vendas_com_sk (df dc dp dl dt : DataFrame.t) :
  DataFrame.columns df = colunas_transformado →
  DataFrame.columns dc = "sk_cliente" :: colunas_cliente →
  DataFrame.columns dp = "sk_produto" :: colunas_produto →
  DataFrame.columns dl = "sk_localidade" :: colunas_localidade →
  DataFrame.columns dt = "sk_tempo" :: colunas_tempo →
  ∃ f, fato_vendas df dc dp dl dt = inr f
       ∧ DataFrame.columns f = colunas_fato
       ∧ DataFrame.fontes f
         = DataFrame.fontes df ++ DataFrame.fontes dc ++ DataFrame.fontes dp
           ++ DataFrame.fontes dl ++ DataFrame.fontes dt.
Proof.
  destruct df, dc, dp, dl, dt. simpl. intros -> -> -> -> ->.
  eexists. split; [by vm_compute|]. split; [done|]. simpl.
  fold (@app string). by rewrite <- !app_assoc.
Qed.

Lemma fato_vendas_com_sk_witness :
  let df := DataFrame.mk colunas_transformado []
              (λ _, inr (valores_transformado
                           <$> df_transformado
                                 (transformar_dados vendas_dois_clientes))) in
  let dim := λ sk cols, DataFrame.mk (sk :: cols) [] (λ _, inr []) in
  ∃ f, fato_vendas df (dim "sk_cliente" colunas_cliente)
         (dim "sk_produto" colunas_produto)
         (dim "sk_localidade" colunas_localidade)
         (dim "sk_tempo" colunas_tempo) = inr f
       ∧ DataFrame.columns f = colunas_fato
       ∧ DataFrame.fontes f = [] ++ [] ++ [] ++ [] ++ [].
Proof.
  exact (fato_vendas_com_sk
           (DataFrame.mk colunas_transformado []
              (λ _, inr (valores_transformado
                           <$> df_transformado
                                 (transformar_dados vendas_dois_clientes))))
           (DataFrame.mk ("sk_cliente" :: colunas_cliente) [] (λ _, inr []))
           (DataFrame.mk ("sk_produto" :: colunas_produto) [] (λ _, inr []))
           (DataFrame.mk ("sk_localidade" :: colunas_localidade) []
              (λ _, inr []))
           (DataFrame.mk ("sk_tempo" :: colunas_tempo) [] (λ _, inr []))
           eq_refl eq_refl eq_refl eq_refl eq_refl).
Defined.

(** ** Runs and the state they start from *)

(** X14: What a run asks of the warehouse and leaves in its dimension
    tables does not depend on what the warehouse held: from any two
    starting states the same extracted rows end in the same error after
    the same requests; when no date raises, each dimension table ends
    with the same columns and the same rows; and a run touches no table
    but the four dimension tables. *)
Lemma main_independe_do_estado (sess : Sessao) (df : list (Linha string))
    (w w' : Armazem) :
  let r := main sess df w in
  let r' := main sess df w' in
  r.1 = r'.1 ∧ pedidos w (r.2) = pedidos w' (r'.2) ∧
  (¬ Exists (λ x, data_levanta sess x) df →
   Forall (λ d, ∃ cols ls, tabela_com (r.2) d cols ls
                           ∧ tabela_com (r'.2) d cols ls)
     ["dim_cliente"; "dim_produto"; "dim_localidade"; "dim_tempo"]) ∧
  (∀ d, d ∉ ["dim_cliente"; "dim_produto"; "dim_localidade"; "dim_tempo"] →
        tabelas (r.2) !! d = tabelas w !! d).
Proof.
  intros r r'. subst r r'.
  destruct (decide (Exists (λ x, data_levanta sess x) df)) as [He|He].
  - rewrite !(main_abortado sess df _ He). cbn [fst snd].
    rewrite !pedidos_app. split; [done|]. split; [done|].
    split; [done|]. intros d Hd. cbn [tabelas].
    apply lookup_insert_ne. intros <-. apply Hd. left.
  - rewrite !(main_sem_excecao sess df _ He). cbn [fst snd].
    rewrite !pedidos_app. split; [done|]. split; [done|]. split.
    + intros _. repeat constructor; eexists _, _; split; eexists;
        (split; [cbn [tabelas]; by simplify_map_eq|done]).
    + intros d Hd. cbn [tabelas].
      rewrite !lookup_insert_ne; [done|intros <-; apply Hd..].
      * left.
      * right. left.
      * do 2 right. left.
      * do 3 right. left.
Qed.

(** ** From the transactional database to the dimensions *)

(** X1: When the identifiers of the product, category, customer and
    location tables are primary keys, the dimensions made of the
    extracted rows have unique natural keys: no two rows of a dimension
    share their customer id, product id, location id or date. *)
Lemma extrair_dados_chaves_naturais (crm : CRM) :
  chaves_primarias crm →
  chaves_naturais_unicas (transformar_dados (extrair_dados crm)).
Proof.
  intros Hpk.
  assert (∀ v v', v ∈ limpar (extrair_dados crm) →
                  v' ∈ limpar (extrair_dados crm) →
            (id_cliente (linha v) = id_cliente (linha v') →
             select_cliente v = select_cliente v') ∧
            (id_produto (linha v) = id_produto (linha v') →
             select_produto v = select_produto v') ∧
            (id_localidade (linha v) = id_localidade (linha v') →
             select_localidade v = select_localidade v')) as Hdep.
  { intros v v' Hv Hv'. rewrite limpar_linhas in Hv, Hv'.
    apply list_elem_of_fmap in Hv as (r & -> & [_ Hr]%list_elem_of_filter).
    apply list_elem_of_fmap in Hv' as (r' & -> & [_ Hr']%list_elem_of_filter).
    destruct (dependencias_da_extracao crm r r' Hpk Hr Hr') as (Dc & Dp & Dl).
    unfold select_cliente, select_produto, select_localidade. simpl.
    split; [|split]; intros Hid.
    - destruct (Dc Hid) as (-> & -> & -> & ->). by rewrite Hid.
    - destruct (Dp Hid) as (-> & ->). by rewrite Hid.
    - destruct (Dl Hid) as (-> & -> & ->). by rewrite Hid. }
  unfold chaves_naturais_unicas, transformar_dados.
  cbn [dim_cliente dim_produto dim_localidade dim_tempo]. repeat split.
  - apply (distinct_chave_unica select_cliente DimCliente.id_cliente).
    intros v v' Hv Hv'. by apply (Hdep v v').
  - apply (distinct_chave_unica select_produto DimProduto.id_produto).
    intros v v' Hv Hv'. by apply (Hdep v v').
  - apply (distinct_chave_unica select_localidade DimLocalidade.id_localidade).
    intros v v' Hv Hv'. by apply (Hdep v v').
  - rewrite <- list_fmap_compose.
    rewrite (list_fmap_ext _ id _ (λ _ _ _, eq_refl)), list_fmap_id.
    apply NoDup_remove_dups.
Qed.

Lemma extrair_dados_chaves_naturais_witness :
  chaves_primarias crm_exemplo ∧
  chaves_naturais_unicas (transformar_dados (extrair_dados crm_exemplo)).
Proof.
  assert (chaves_primarias crm_exemplo) as Hpk.
  { unfold chaves_primarias.
    repeat split; apply (bool_decide_unpack _); vm_compute; exact I. }
  split; [exact Hpk|]. exact (extrair_dados_chaves_naturais crm_exemplo Hpk).
Defined.
